(** * kvadmission: the integration layer between KV and admission control

    A shallow embedding of [pkg/kv/kvserver/kvadmission/kvadmission.go].

    The admission queues themselves ([admission.WorkQueue],
    [admission.StoreWorkQueue], [admission.ElasticCPUWorkQueue]) live in
    another package.  Every call the controller makes on them is recorded
    as an event of a trace, and what a call returns is read from an oracle
    ([World]), so that the theorems hold for every behaviour of the queues. *)

From Stdlib Require Import ZArith List Bool Lia Permutation.
Import ListNotations.
Open Scope Z_scope.

(* ================================================================= *)
(** ** Machine integers *)

Module MachineInt.

(** A signed [w]-bit integer is a [Z] in [-2^(w-1), 2^(w-1)); [wrap w]
    is what Go's arithmetic keeps of an exact result. *)
Definition wrap (w : Z) (x : Z) : Z :=
  (x + 2 ^ (w - 1)) mod 2 ^ w - 2 ^ (w - 1).

Definition int64 (x : Z) : Z := wrap 64 x.
Definition int32 (x : Z) : Z := wrap 32 x.
Definition int8 (x : Z) : Z := wrap 8 x.

(** Go's [+] on int64. *)
Definition add64 (x y : Z) : Z := int64 (x + y).

Definition in_int64 (x : Z) : Prop := - 2 ^ 63 <= x < 2 ^ 63.

End MachineInt.

(* ================================================================= *)
(** ** Package roachpb: what kvadmission.go uses of it *)

Module roachpb.

(** [roachpb.AdmissionHeader_Source].  The enumeration is declared in
    package roachpb; kvadmission.go names two of its values,
    [AdmissionHeader_FROM_SQL] and [AdmissionHeader_OTHER], and
    [AdmissionHeader_ROOT_KV] stands for a value that is neither. *)
Inductive AdmissionHeader_Source : Type :=
| AdmissionHeader_FROM_SQL
| AdmissionHeader_ROOT_KV
| AdmissionHeader_OTHER.

Definition Source_eqb (a b : AdmissionHeader_Source) : bool :=
  match a, b with
  | AdmissionHeader_FROM_SQL, AdmissionHeader_FROM_SQL => true
  | AdmissionHeader_ROOT_KV, AdmissionHeader_ROOT_KV => true
  | AdmissionHeader_OTHER, AdmissionHeader_OTHER => true
  | _, _ => false
  end.

(** [roachpb.AdmissionHeader]: [Priority] is an int32, [CreateTime] an
    int64 (nanoseconds), [Source] the declared source. *)
Record AdmissionHeader : Type := {
  Priority : Z;
  CreateTime : Z;
  Source : AdmissionHeader_Source
}.

(** [roachpb.TenantID], through [ToUint64]. *)
Definition TenantID : Type := Z.

(** [*roachpb.BatchRequest] as AdmitKVWork observes it: the admission
    header, [ba.Replica.StoreID], and the four methods it calls on the
    batch. *)
Record BatchRequest : Type := {
  ba_AdmissionHeader : AdmissionHeader;
  Replica_StoreID : Z;
  IsAdmin : bool;
  IsWrite : bool;
  IsSingleHeartbeatTxnRequest : bool;
  IsSingleExportRequest : bool
}.

(** [*roachpb.RangeFeedRequest]: only its admission header is read. *)
Record RangeFeedRequest : Type := {
  rf_AdmissionHeader : AdmissionHeader
}.

End roachpb.

(* ================================================================= *)
(** ** Package admission: what kvadmission.go uses of it *)

Module admission.

(** [admission.StoreWorkDoneInfo]: the two byte counters kvadmission.go
    reads and adds ([WriteBytes], [IngestedBytes]), taken as int64 like
    the [NumEntries] they are merged with. *)
Record StoreWorkDoneInfo : Type := {
  WriteBytes : Z;
  IngestedBytes : Z
}.

(** The Go zero value [admission.StoreWorkDoneInfo{}]. *)
Definition StoreWorkDoneInfo_zero : StoreWorkDoneInfo :=
  {| WriteBytes := 0; IngestedBytes := 0 |}.

(** Declarations of other packages that kvadmission.go uses and that are
    kept abstract: the error type, the queue and handle types of package
    admission with the one method read off a store handle, the conversion
    [admissionpb.WorkPriority(_)] of the header's int32 priority with the
    constant [admissionpb.NormalPri], [roachpb.IsSystemTenantID] and
    [buildutil.CrdbTestBuild]. *)
Class External : Type := {
  error : Type;
  StoreWorkQueue : Type;
  StoreWorkHandle : Type;
  StoreWorkHandle_zero : StoreWorkHandle;
  AdmissionEnabled : StoreWorkHandle -> bool;
  ElasticCPUWorkHandle : Type;
  WorkPriority : Z -> Z;
  NormalPri : Z;
  IsSystemTenantID : Z -> bool;
  CrdbTestBuild : bool
}.

(** [admission.WorkInfo], the four fields kvadmission.go fills in. *)
Record WorkInfo : Type := {
  TenantID : roachpb.TenantID;
  Priority : Z;
  CreateTime : Z;
  BypassAdmission : bool
}.

(** [admission.StoreWriteWorkInfo{WorkInfo: ...}] *)
Record StoreWriteWorkInfo : Type := {
  swwi_WorkInfo : WorkInfo
}.

(** A Go result pair [(a, err)]: [Ok a] when [err == nil]. *)
Inductive Result {E : External} (A : Type) : Type :=
| Ok (a : A)
| Err (e : error).
Arguments Ok {E A} a.
Arguments Err {E A} e.

(** [map[uint64]uint32]; [None] is the nil map. *)
Definition TenantWeightMap : Type := option (list (Z * Z)).

(** The cluster settings kvadmission.go reads. *)
Record Settings : Type := {
  KVBulkOnlyAdmissionControlEnabled : bool;
  KVTenantWeightsEnabled : bool;
  KVStoresTenantWeightsEnabled : bool;
  elasticCPUDurationPerExportRequest : Z;
  elasticCPUDurationPerRangefeedScanUnit : Z
}.

(** One call on an admission queue (or on the logger), with its
    arguments and, where the controller reads it, its result. *)
Inductive Call {E : External} : Type :=
| StoreWorkQueue_Admit
    (q : StoreWorkQueue) (info : StoreWriteWorkInfo)
    (res : Result StoreWorkHandle)
| StoreWorkQueue_AdmittedWorkDone
    (q : StoreWorkQueue) (h : StoreWorkHandle) (doneInfo : StoreWorkDoneInfo)
    (res : option error)
| ElasticCPUWorkQueue_Admit
    (duration : Z) (info : WorkInfo)
    (res : Result (option ElasticCPUWorkHandle))
| ElasticCPUWorkQueue_AdmittedWorkDone
    (h : option ElasticCPUWorkHandle)
| WorkQueue_Admit
    (info : WorkInfo) (res : Result bool)
| WorkQueue_AdmittedWorkDone
    (tenantID : roachpb.TenantID)
| log_Fatalf (e : error)
| log_Errorf (e : error).

(** What the environment answers: the clock, the outcome of each queue
    call, and the rate limiter of the logger. *)
Record World {E : External} : Type := {
  Now_UnixNano : Z;
  StoreWorkQueue_Admit_result :
    StoreWorkQueue -> StoreWriteWorkInfo -> Result StoreWorkHandle;
  StoreWorkQueue_AdmittedWorkDone_result :
    StoreWorkQueue -> StoreWorkHandle -> StoreWorkDoneInfo -> option error;
  ElasticCPUWorkQueue_Admit_result :
    Z -> WorkInfo -> Result (option ElasticCPUWorkHandle);
  WorkQueue_Admit_result : WorkInfo -> Result bool;
  OverLimit_result : option ElasticCPUWorkHandle -> bool;
  every_ShouldLog : bool
}.

End admission.

(* ================================================================= *)
(** ** Package kvadmission *)

Module kvadmission.
Import MachineInt.

(** [type FollowerStoreWriteBytes struct { NumEntries int64;
    admission.StoreWorkDoneInfo }] *)
Record FollowerStoreWriteBytes : Type := {
  NumEntries : Z;
  StoreWorkDoneInfo : admission.StoreWorkDoneInfo
}.

(** [func (f *FollowerStoreWriteBytes) Merge(from FollowerStoreWriteBytes)]:
    the receiver after the call. *)
Definition Merge (f from : FollowerStoreWriteBytes) : FollowerStoreWriteBytes :=
  {| NumEntries := add64 (NumEntries f) (NumEntries from);
     StoreWorkDoneInfo :=
       {| admission.WriteBytes :=
            add64 (admission.WriteBytes (StoreWorkDoneInfo f))
                  (admission.WriteBytes (StoreWorkDoneInfo from));
          admission.IngestedBytes :=
            add64 (admission.IngestedBytes (StoreWorkDoneInfo f))
                  (admission.IngestedBytes (StoreWorkDoneInfo from)) |} |}.

(** [type StoreWriteBytes admission.StoreWorkDoneInfo] *)
Definition StoreWriteBytes : Type := admission.StoreWorkDoneInfo.

Section Controller.
Context {E : admission.External}.

(** [type controllerImpl struct].  "All three should be nil or non-nil":
    [kvAdmissionQ] tells whether the three queue references are non-nil,
    and [storeGrantCoords] is the coordinators' [TryGetQueueForStore].
    [settings] are the values of the cluster settings when they are read. *)
Record controllerImpl : Type := {
  kvAdmissionQ : bool;
  storeGrantCoords : Z -> option admission.StoreWorkQueue;
  settings : admission.Settings
}.

(** [type Handle struct] *)
Record Handle : Type := {
  tenantID : roachpb.TenantID;
  storeAdmissionQ : option admission.StoreWorkQueue;
  storeWorkHandle : admission.StoreWorkHandle;
  ElasticCPUWorkHandle : option admission.ElasticCPUWorkHandle;
  callAdmittedWorkDoneOnKVAdmissionQ : bool
}.

(** The Go zero value [Handle{}]. *)
Definition Handle_zero : Handle :=
  {| tenantID := 0;
     storeAdmissionQ := None;
     storeWorkHandle := admission.StoreWorkHandle_zero;
     ElasticCPUWorkHandle := None;
     callAdmittedWorkDoneOnKVAdmissionQ := false |}.

(** *** Function bodies with [defer] and early [return]

    A body runs over a frame: the local [ah], the stack of deferred
    closures (the last registered first) and the calls made so far.  It
    either goes on with a value or returns [(handle, retErr)]. *)

(** The two closures AdmitKVWork defers: the store rollback (which
    captures [storeAdmissionQ]) and the elastic-CPU rollback. *)
Inductive Deferred : Type :=
| defer_storeAdmittedWorkDone (q : admission.StoreWorkQueue)
| defer_elasticAdmittedWorkDone.

Record Frame : Type := {
  ah : Handle;
  deferred : list Deferred;
  calls : list admission.Call
}.

Inductive Outcome (A : Type) : Type :=
| Next (a : A)
| Return (handle : Handle) (retErr : option admission.error).
Arguments Next {A} a.
Arguments Return {A} handle retErr.

Definition Body (A : Type) : Type := Frame -> Outcome A * Frame.

Definition ret {A : Type} (a : A) : Body A := fun fr => (Next a, fr).

Definition bind {A B : Type} (c : Body A) (k : A -> Body B) : Body B :=
  fun fr =>
    match c fr with
    | (Next a, fr') => k a fr'
    | (Return h e, fr') => (Return h e, fr')
    end.

Definition return_ {A : Type} (h : Handle) (e : option admission.error)
  : Body A :=
  fun fr => (Return h e, fr).

Definition call (c : admission.Call) : Body Datatypes.unit :=
  fun fr =>
    (Next tt,
     {| ah := ah fr; deferred := deferred fr; calls := calls fr ++ [c] |}).

Definition defer (d : Deferred) : Body Datatypes.unit :=
  fun fr =>
    (Next tt,
     {| ah := ah fr; deferred := d :: deferred fr; calls := calls fr |}).

Definition get_ah : Body Handle := fun fr => (Next (ah fr), fr).

Definition set_ah (f : Handle -> Handle) : Body Datatypes.unit :=
  fun fr =>
    (Next tt,
     {| ah := f (ah fr); deferred := deferred fr; calls := calls fr |}).

End Controller.

Arguments Next {E A} a.
Arguments Return {E A} handle retErr.

Declare Scope body_scope.
Delimit Scope body_scope with body.
Notation "x <- c ;; k" := (bind c (fun x => k))
  (at level 61, c at next level, right associativity) : body_scope.
Notation "c ;;; k" := (bind c (fun _ => k))
  (at level 61, right associativity) : body_scope.

Section Functions.
Context {E : admission.External}.
Local Open Scope body_scope.

(** What a deferred closure does when the function returns: both
    closures act only [if retErr != nil], and both read [ah] as it is at
    that moment. *)
Definition runDeferred (w : admission.World) (ah : Handle)
  (retErr : option admission.error) (d : Deferred) : list admission.Call :=
  match retErr with
  | None => []
  | Some _ =>
      match d with
      | defer_storeAdmittedWorkDone q =>
          [admission.StoreWorkQueue_AdmittedWorkDone
             q (storeWorkHandle ah) admission.StoreWorkDoneInfo_zero
             (admission.StoreWorkQueue_AdmittedWorkDone_result
                w q (storeWorkHandle ah) admission.StoreWorkDoneInfo_zero)]
      | defer_elasticAdmittedWorkDone =>
          [admission.ElasticCPUWorkQueue_AdmittedWorkDone
             (ElasticCPUWorkHandle ah)]
      end
  end.

(** Running a body as a Go function with named results
    [(handle Handle, retErr error)]: the deferred closures run after the
    results are set, the last registered first. *)
Definition runFunc (w : admission.World) (tenant : roachpb.TenantID)
  (body : Body (Handle * option admission.error))
  : (Handle * option admission.error) * list admission.Call :=
  let fr0 :=
    {| ah := {| tenantID := tenant;
                storeAdmissionQ := None;
                storeWorkHandle := admission.StoreWorkHandle_zero;
                ElasticCPUWorkHandle := None;
                callAdmittedWorkDoneOnKVAdmissionQ := false |};
       deferred := [];
       calls := [] |} in
  let '(out, fr) := body fr0 in
  let '(handle, retErr) :=
    match out with
    | Next r => r
    | Return h e => (h, e)
    end in
  ((handle, retErr),
   calls fr ++ flat_map (runDeferred w (ah fr) retErr) (deferred fr)).

(** Lines 179-194 of AdmitKVWork: the local variables [bypassAdmission]
    and [source] after the three [if]s. *)
Definition classify (n : controllerImpl) (tenantID : roachpb.TenantID)
  (ba : roachpb.BatchRequest) : bool * roachpb.AdmissionHeader_Source :=
  let bypassAdmission := roachpb.IsAdmin ba in
  let source := roachpb.Source (roachpb.ba_AdmissionHeader ba) in
  let '(bypassAdmission, source) :=
    if negb (admission.IsSystemTenantID tenantID)
    then (false, roachpb.AdmissionHeader_FROM_SQL)
    else (bypassAdmission, source) in
  let bypassAdmission :=
    if roachpb.Source_eqb source roachpb.AdmissionHeader_OTHER
    then true else bypassAdmission in
  let bypassAdmission :=
    if admission.KVBulkOnlyAdmissionControlEnabled (settings n)
    then
      if admission.NormalPri
         <=? admission.WorkPriority
               (roachpb.Priority (roachpb.ba_AdmissionHeader ba))
      then true else bypassAdmission
    else bypassAdmission in
  (bypassAdmission, source).

(** Lines 195-206: [createTime] and the [admission.WorkInfo] built from
    it. *)
Definition admissionInfo (n : controllerImpl) (w : admission.World)
  (tenantID : roachpb.TenantID) (ba : roachpb.BatchRequest)
  : admission.WorkInfo :=
  let bypassAdmission := fst (classify n tenantID ba) in
  let createTime := roachpb.CreateTime (roachpb.ba_AdmissionHeader ba) in
  let createTime :=
    if negb bypassAdmission && (createTime =? 0)
    then admission.Now_UnixNano w
    else createTime in
  {| admission.TenantID := tenantID;
     admission.Priority :=
       admission.WorkPriority
         (roachpb.Priority (roachpb.ba_AdmissionHeader ba));
     admission.CreateTime := createTime;
     admission.BypassAdmission := bypassAdmission |}.

(** Lines 215-234: the store work queue.  The value is the local
    [admissionEnabled] afterwards. *)
Definition admitStore (n : controllerImpl) (w : admission.World)
  (ba : roachpb.BatchRequest) (info : admission.WorkInfo) : Body bool :=
  if roachpb.IsWrite ba && negb (roachpb.IsSingleHeartbeatTxnRequest ba)
  then
    match storeGrantCoords n (int32 (roachpb.Replica_StoreID ba)) with
    | Some q =>
        let swi := {| admission.swwi_WorkInfo := info |} in
        let res := admission.StoreWorkQueue_Admit_result w q swi in
        call (admission.StoreWorkQueue_Admit q swi res) ;;;
        match res with
        | admission.Err err => return_ Handle_zero (Some err)
        | admission.Ok h =>
            let admissionEnabled := admission.AdmissionEnabled h in
            if admissionEnabled
            then
              defer (defer_storeAdmittedWorkDone q) ;;;
              set_ah (fun a =>
                {| tenantID := tenantID a;
                   storeAdmissionQ := Some q;
                   storeWorkHandle := h;
                   ElasticCPUWorkHandle := ElasticCPUWorkHandle a;
                   callAdmittedWorkDoneOnKVAdmissionQ :=
                     callAdmittedWorkDoneOnKVAdmissionQ a |}) ;;;
              ret admissionEnabled
            else ret admissionEnabled
        end
    | None => ret true
    end
  else ret true.

(** Lines 235-269: the elastic CPU work queue for a single export
    request, the KV work queue for everything else. *)
Definition admitCPU (n : controllerImpl) (w : admission.World)
  (ba : roachpb.BatchRequest) (info : admission.WorkInfo)
  : Body Datatypes.unit :=
  if roachpb.IsSingleExportRequest ba
  then
    let d := admission.elasticCPUDurationPerExportRequest (settings n) in
    let res := admission.ElasticCPUWorkQueue_Admit_result w d info in
    call (admission.ElasticCPUWorkQueue_Admit d info res) ;;;
    match res with
    | admission.Err err => return_ Handle_zero (Some err)
    | admission.Ok elasticWorkHandle =>
        set_ah (fun a =>
          {| tenantID := tenantID a;
             storeAdmissionQ := storeAdmissionQ a;
             storeWorkHandle := storeWorkHandle a;
             ElasticCPUWorkHandle := elasticWorkHandle;
             callAdmittedWorkDoneOnKVAdmissionQ :=
               callAdmittedWorkDoneOnKVAdmissionQ a |}) ;;;
        defer defer_elasticAdmittedWorkDone
    end
  else
    let res := admission.WorkQueue_Admit_result w info in
    call (admission.WorkQueue_Admit info res) ;;;
    match res with
    | admission.Err err => return_ Handle_zero (Some err)
    | admission.Ok b =>
        set_ah (fun a =>
          {| tenantID := tenantID a;
             storeAdmissionQ := storeAdmissionQ a;
             storeWorkHandle := storeWorkHandle a;
             ElasticCPUWorkHandle := ElasticCPUWorkHandle a;
             callAdmittedWorkDoneOnKVAdmissionQ := b |})
    end.

(** [func (n *controllerImpl) AdmitKVWork(ctx, tenantID, ba)
    (handle Handle, retErr error)], with the calls it makes. *)
Definition AdmitKVWork (n : controllerImpl) (w : admission.World)
  (tenantID : roachpb.TenantID) (ba : roachpb.BatchRequest)
  : (Handle * option admission.error) * list admission.Call :=
  runFunc w tenantID
    (if negb (kvAdmissionQ n)
     then (a <- get_ah ;; ret (a, None))
     else
       let info := admissionInfo n w tenantID ba in
       admissionEnabled <- admitStore n w ba info ;;
       (if admissionEnabled : bool then admitCPU n w ba info else ret tt) ;;;
       a <- get_ah ;;
       ret (a, None)).

(** [func (n *controllerImpl) AdmittedKVWorkDone(ah Handle,
    writeBytes *StoreWriteBytes)]: the calls it makes. *)
Definition AdmittedKVWorkDone (n : controllerImpl) (w : admission.World)
  (ah : Handle) (writeBytes : option StoreWriteBytes)
  : list admission.Call :=
  [admission.ElasticCPUWorkQueue_AdmittedWorkDone (ElasticCPUWorkHandle ah)]
  ++ (if callAdmittedWorkDoneOnKVAdmissionQ ah
      then [admission.WorkQueue_AdmittedWorkDone (tenantID ah)]
      else [])
  ++ match storeAdmissionQ ah with
     | Some q =>
         let doneInfo :=
           match writeBytes with
           | Some wb => wb
           | None => admission.StoreWorkDoneInfo_zero
           end in
         let err :=
           admission.StoreWorkQueue_AdmittedWorkDone_result
             w q (storeWorkHandle ah) doneInfo in
         admission.StoreWorkQueue_AdmittedWorkDone
           q (storeWorkHandle ah) doneInfo err
         :: match err with
            | Some e =>
                if admission.CrdbTestBuild
                then [admission.log_Fatalf e]
                else if admission.every_ShouldLog w
                     then [admission.log_Errorf e]
                     else []
            | None => []
            end
     | None => []
     end.

(** *** Pacer *)

(** [type Pacer struct]: [wq] is the elastic CPU work queue the calls go
    to; [cur] is the outstanding handle, [None] for nil. *)
Record Pacer : Type := {
  unit : Z;
  wi : admission.WorkInfo;
  cur : option admission.ElasticCPUWorkHandle
}.

(** [func (n *controllerImpl) AdmitRangefeedRequest(tenantID, request)
    *Pacer] *)
Definition AdmitRangefeedRequest (n : controllerImpl)
  (tenantID : roachpb.TenantID) (request : roachpb.RangeFeedRequest)
  : option Pacer :=
  Some
    {| unit := admission.elasticCPUDurationPerRangefeedScanUnit (settings n);
       wi :=
         {| admission.TenantID := tenantID;
            admission.Priority :=
              admission.WorkPriority
                (roachpb.Priority (roachpb.rf_AdmissionHeader request));
            admission.CreateTime :=
              roachpb.CreateTime (roachpb.rf_AdmissionHeader request);
            admission.BypassAdmission := false |};
       cur := None |}.

(** [func (p *Pacer) Pace(ctx) error]: the error returned, the Pacer
    afterwards and the calls made.  A nil [*Pacer] is [None]. *)
Definition Pace (w : admission.World) (p : option Pacer)
  : option admission.error * option Pacer * list admission.Call :=
  match p with
  | None => (None, None, [])
  | Some p =>
      let '(p, released) :=
        if admission.OverLimit_result w (cur p)
        then ({| unit := unit p; wi := wi p; cur := None |},
              [admission.ElasticCPUWorkQueue_AdmittedWorkDone (cur p)])
        else (p, []) in
      match cur p with
      | None =>
          let res :=
            admission.ElasticCPUWorkQueue_Admit_result w (unit p) (wi p) in
          let admitCall :=
            [admission.ElasticCPUWorkQueue_Admit (unit p) (wi p) res] in
          match res with
          | admission.Err err => (Some err, Some p, released ++ admitCall)
          | admission.Ok handle =>
              (None,
               Some {| unit := unit p; wi := wi p; cur := handle |},
               released ++ admitCall)
          end
      | Some _ => (None, Some p, released)
      end
  end.

(** [func (p *Pacer) Close()]: the Pacer afterwards and the calls made. *)
Definition Close (p : option Pacer) : option Pacer * list admission.Call :=
  match p with
  | None => (None, [])
  | Some p =>
      match cur p with
      | None => (Some p, [])
      | Some h =>
          (Some {| unit := unit p; wi := wi p; cur := None |},
           [admission.ElasticCPUWorkQueue_AdmittedWorkDone (Some h)])
      end
  end.

(** *** The tenant weight loop *)

(** [type TenantWeightsForStore struct] *)
Record TenantWeightsForStore : Type := {
  StoreID : Z;
  Weights : admission.TenantWeightMap
}.

(** [type TenantWeights struct] *)
Record TenantWeights : Type := {
  Node : admission.TenantWeightMap;
  Stores : list TenantWeightsForStore
}.

(** The calls of the goroutine started by SetTenantWeightProvider. *)
Inductive LoopCall : Type :=
| provider_GetTenantWeights (res : TenantWeights)
| WorkQueue_SetTenantWeights (m : admission.TenantWeightMap)
| ElasticCPUWorkQueue_SetTenantWeights (m : admission.TenantWeightMap)
| StoreWorkQueue_SetTenantWeights
    (q : admission.StoreWorkQueue) (m : admission.TenantWeightMap)
| ticker_Stop.

(** What the [select] of the loop receives: a tick (with the settings as
    they are at that tick and what the provider answers if it is asked),
    or the stopper's quiescence signal. *)
Inductive Select : Type :=
| ticker_C (sv : admission.Settings) (provided : TenantWeights)
| stopper_ShouldQuiesce.

(** The [case <-ticker.C:] branch, lines 332-354: the value of
    [allWeightsDisabled] afterwards and the calls made. *)
Definition tick (n : controllerImpl) (allWeightsDisabled : bool)
  (sv : admission.Settings) (provided : TenantWeights)
  : bool * list LoopCall :=
  let kvDisabled := negb (admission.KVTenantWeightsEnabled sv) in
  let kvStoresDisabled := negb (admission.KVStoresTenantWeightsEnabled sv) in
  if allWeightsDisabled && kvDisabled && kvStoresDisabled
  then (allWeightsDisabled, [])
  else
    let weights := provided in
    let node := if kvDisabled then None else Node weights in
    (kvDisabled && kvStoresDisabled,
     [provider_GetTenantWeights weights;
      WorkQueue_SetTenantWeights node;
      ElasticCPUWorkQueue_SetTenantWeights node]
     ++ flat_map
          (fun storeWeights =>
             match storeGrantCoords n (int32 (StoreID storeWeights)) with
             | Some q =>
                 [StoreWorkQueue_SetTenantWeights q
                    (if kvStoresDisabled then None
                     else Weights storeWeights)]
             | None => []
             end)
          (Stores weights)).

(** The [for { select { ... } }] loop, from a given value of
    [allWeightsDisabled]: the calls made at each received signal, in
    order.  The loop returns at the quiescence signal. *)
Fixpoint weightLoop (n : controllerImpl) (allWeightsDisabled : bool)
  (signals : list Select) : list (list LoopCall) :=
  match signals with
  | [] => []
  | ticker_C sv provided :: rest =>
      let '(allWeightsDisabled', made) :=
        tick n allWeightsDisabled sv provided in
      made :: weightLoop n allWeightsDisabled' rest
  | stopper_ShouldQuiesce :: _ => [[ticker_Stop]]
  end.

(** The value of [allWeightsDisabled] after the signals. *)
Fixpoint weightLoop_state (n : controllerImpl) (allWeightsDisabled : bool)
  (signals : list Select) : bool :=
  match signals with
  | [] => allWeightsDisabled
  | ticker_C sv provided :: rest =>
      weightLoop_state n (fst (tick n allWeightsDisabled sv provided)) rest
  | stopper_ShouldQuiesce :: _ => allWeightsDisabled
  end.

(** [func (n *controllerImpl) SetTenantWeightProvider(provider, stopper)]:
    the goroutine starts with [allWeightsDisabled := false]. *)
Definition SetTenantWeightProvider (n : controllerImpl)
  (signals : list Select) : list (list LoopCall) :=
  weightLoop n false signals.

(** *** Reports that bypass admission *)

(** The calls SnapshotIngested and FollowerStoreWriteBytes make on a
    store work queue.  [Stats] stands for [pebble.IngestOperationStats],
    which is passed on as it is. *)
Inductive StoreCall (Stats : Type) : Type :=
| StoreWorkQueue_StatsToIgnore
    (q : admission.StoreWorkQueue) (ingestStats : Stats)
| StoreWorkQueue_BypassedWorkDone
    (q : admission.StoreWorkQueue) (numEntries : Z)
    (doneInfo : admission.StoreWorkDoneInfo).
Arguments StoreWorkQueue_StatsToIgnore {Stats} q ingestStats.
Arguments StoreWorkQueue_BypassedWorkDone {Stats} q numEntries doneInfo.

(** [func (n *controllerImpl) SnapshotIngested(storeID, ingestStats)] *)
Definition SnapshotIngested {Stats : Type} (n : controllerImpl)
  (storeID : Z) (ingestStats : Stats) : list (StoreCall Stats) :=
  match storeGrantCoords n (int32 storeID) with
  | None => []
  | Some storeAdmissionQ =>
      [StoreWorkQueue_StatsToIgnore storeAdmissionQ ingestStats]
  end.

(** [func (n *controllerImpl) FollowerStoreWriteBytes(storeID,
    followerWriteBytes)] (the method; the type of the same name is the
    record above). *)
Definition controllerImpl_FollowerStoreWriteBytes {Stats : Type}
  (n : controllerImpl) (storeID : Z)
  (followerWriteBytes : FollowerStoreWriteBytes) : list (StoreCall Stats) :=
  if (admission.WriteBytes (StoreWorkDoneInfo followerWriteBytes) =? 0)
     && (admission.IngestedBytes (StoreWorkDoneInfo followerWriteBytes) =? 0)
  then []
  else
    match storeGrantCoords n (int32 storeID) with
    | None => []
    | Some storeAdmissionQ =>
        [StoreWorkQueue_BypassedWorkDone storeAdmissionQ
           (NumEntries followerWriteBytes)
           (StoreWorkDoneInfo followerWriteBytes)]
    end.

(** *** The Pacer carried by a context *)

(** A [context.Context] as a chain of [context.WithValue] layers, the
    last added first.  A key is [pacerKey{}] or a key of another
    package; a value is a [*Pacer] or something else. *)
Inductive ctxKey : Type :=
| pacerKey
| otherKey (k : nat).

Inductive ctxValue : Type :=
| value_Pacer (h : option Pacer)
| value_other (v : nat).

Definition Context : Type := list (ctxKey * ctxValue).

Definition ctxKey_eqb (a b : ctxKey) : bool :=
  match a, b with
  | pacerKey, pacerKey => true
  | otherKey i, otherKey j => Nat.eqb i j
  | _, _ => false
  end.

(** [context.WithValue(ctx, key, val)] *)
Definition context_WithValue (ctx : Context) (key : ctxKey) (val : ctxValue)
  : Context :=
  (key, val) :: ctx.

(** [ctx.Value(key)]: the value of the innermost layer with that key;
    [None] is the nil interface. *)
Fixpoint context_Value (ctx : Context) (key : ctxKey) : option ctxValue :=
  match ctx with
  | [] => None
  | (k, v) :: parent =>
      if ctxKey_eqb k key then Some v else context_Value parent key
  end.

(** [func ContextWithPacer(ctx, h *Pacer) context.Context] *)
Definition ContextWithPacer (ctx : Context) (h : option Pacer) : Context :=
  match h with
  | None => ctx
  | Some _ => context_WithValue ctx pacerKey (value_Pacer h)
  end.

(** [func PacerFromContext(ctx) *Pacer]: the value under [pacerKey{}]
    when it is a [*Pacer], nil otherwise. *)
Definition PacerFromContext (ctx : Context) : option Pacer :=
  match context_Value ctx pacerKey with
  | Some (value_Pacer h) => h
  | _ => None
  end.

End Functions.

Arguments StoreWorkQueue_StatsToIgnore {E Stats} q ingestStats.
Arguments StoreWorkQueue_BypassedWorkDone {E Stats} q numEntries doneInfo.

(** *** Duration settings *)

(** The error of a validation function: which bound was violated, the
    bound and the duration that was given (the two settings word the
    message differently, [perExport] tells which one). *)
Inductive DurationError : Type :=
| belowMinimum (perExport : bool) (minimum got : Z)
| aboveMaximum (perExport : bool) (maximum got : Z).

(** The validation function registered with
    [elasticCPUDurationPerExportRequest], lines 41-51, over
    [admission.MinElasticCPUDuration] and
    [admission.MaxElasticCPUDuration]. *)
Definition validateDurationPerExportRequest
  (MinElasticCPUDuration MaxElasticCPUDuration duration : Z)
  : option DurationError :=
  if duration <? MinElasticCPUDuration
  then Some (belowMinimum true MinElasticCPUDuration duration)
  else if MaxElasticCPUDuration <? duration
       then Some (aboveMaximum true MaxElasticCPUDuration duration)
       else None.

(** The validation function registered with
    [elasticCPUDurationPerRangefeedScanUnit], lines 61-71. *)
Definition validateDurationPerRangefeedScanUnit
  (MinElasticCPUDuration MaxElasticCPUDuration duration : Z)
  : option DurationError :=
  if duration <? MinElasticCPUDuration
  then Some (belowMinimum false MinElasticCPUDuration duration)
  else if MaxElasticCPUDuration <? duration
       then Some (aboveMaximum false MaxElasticCPUDuration duration)
       else None.

(** *** The pool of StoreWriteBytes *)

(** The objects [*StoreWriteBytes] points to, by address, and
    [storeWriteBytesPool]: the addresses that were put and not yet
    taken. *)
Record PoolState : Type := {
  objects : list StoreWriteBytes;
  storeWriteBytesPool : list nat
}.

Fixpoint store_at {A : Type} (l : list A) (i : nat) (a : A) : list A :=
  match l, i with
  | [], _ => []
  | _ :: l', O => a :: l'
  | x :: l', S i' => x :: store_at l' i' a
  end.

Fixpoint drop_at {A : Type} (l : list A) (i : nat) : list A :=
  match l, i with
  | [], _ => []
  | _ :: l', O => l'
  | x :: l', S i' => x :: drop_at l' i'
  end.

(** [storeWriteBytesPool.Get()]: [sync.Pool] hands out any of its items
    ([pick] is its position) or, when it has none or chooses to ignore
    them, the result of [New], a fresh [&StoreWriteBytes{}]. *)
Definition pool_Get (pick : option nat) (st : PoolState) : nat * PoolState :=
  let fresh :=
    (length (objects st),
     {| objects := objects st ++ [admission.StoreWorkDoneInfo_zero];
        storeWriteBytesPool := storeWriteBytesPool st |}) in
  match pick with
  | Some i =>
      match nth_error (storeWriteBytesPool st) i with
      | Some wb =>
          (wb,
           {| objects := objects st;
              storeWriteBytesPool := drop_at (storeWriteBytesPool st) i |})
      | None => fresh
      end
  | None => fresh
  end.

(** [func NewStoreWriteBytes() *StoreWriteBytes] *)
Definition NewStoreWriteBytes (pick : option nat) (st : PoolState)
  : nat * PoolState :=
  let '(wb, st) := pool_Get pick st in
  (wb,
   {| objects := store_at (objects st) wb admission.StoreWorkDoneInfo_zero;
      storeWriteBytesPool := storeWriteBytesPool st |}).

(** [func (wb *StoreWriteBytes) Release()] *)
Definition Release (wb : option nat) (st : PoolState) : PoolState :=
  match wb with
  | None => st
  | Some a =>
      {| objects := objects st;
         storeWriteBytesPool := a :: storeWriteBytesPool st |}
  end.

(** A write through a [*StoreWriteBytes]. *)
Definition write (wb : nat) (v : StoreWriteBytes) (st : PoolState)
  : PoolState :=
  {| objects := store_at (objects st) wb v;
     storeWriteBytesPool := storeWriteBytesPool st |}.

End kvadmission.

(* ================================================================= *)
(** ** Reading a trace: tokens acquired and released *)

Module Tokens.
Section Tokens.
Context {E : admission.External}.

(** What a request can hold after admission: a store work handle that is
    charged ([AdmissionEnabled]), an elastic CPU work handle, or the
    obligation to call [AdmittedWorkDone] on the KV work queue. *)
Inductive Token : Type :=
| StoreToken (q : admission.StoreWorkQueue) (h : admission.StoreWorkHandle)
| ElasticToken (h : admission.ElasticCPUWorkHandle)
| KVToken (tenantID : roachpb.TenantID).

Definition acquired_by (c : admission.Call) : list Token :=
  match c with
  | admission.StoreWorkQueue_Admit q _ (admission.Ok h) =>
      if admission.AdmissionEnabled h then [StoreToken q h] else []
  | admission.ElasticCPUWorkQueue_Admit _ _ (admission.Ok (Some h)) =>
      [ElasticToken h]
  | admission.WorkQueue_Admit info (admission.Ok true) =>
      [KVToken (admission.TenantID info)]
  | _ => []
  end.

(** Modelled from the spec: the body of
    [ElasticCPUWorkQueue.AdmittedWorkDone] is in package admission; its
    contract is "safe on absent token", so the call with a nil handle
    is a call that releases nothing. *)
Definition released_by (c : admission.Call) : list Token :=
  match c with
  | admission.StoreWorkQueue_AdmittedWorkDone q h _ _ => [StoreToken q h]
  | admission.ElasticCPUWorkQueue_AdmittedWorkDone (Some h) =>
      [ElasticToken h]
  | admission.WorkQueue_AdmittedWorkDone t => [KVToken t]
  | _ => []
  end.

Definition acquired (tr : list admission.Call) : list Token :=
  flat_map acquired_by tr.

Definition released (tr : list admission.Call) : list Token :=
  flat_map released_by tr.

(** The [Admit] calls. *)
Definition isAdmit (c : admission.Call) : bool :=
  match c with
  | admission.StoreWorkQueue_Admit _ _ _
  | admission.ElasticCPUWorkQueue_Admit _ _ _
  | admission.WorkQueue_Admit _ _ => true
  | _ => false
  end.

(** The completion calls: every [AdmittedWorkDone] on one of the three
    queues, whatever its argument. *)
Definition isCompletion (c : admission.Call) : bool :=
  match c with
  | admission.StoreWorkQueue_AdmittedWorkDone _ _ _ _
  | admission.ElasticCPUWorkQueue_AdmittedWorkDone _
  | admission.WorkQueue_AdmittedWorkDone _ => true
  | _ => false
  end.

Definition isElasticAdmit (c : admission.Call) : bool :=
  match c with
  | admission.ElasticCPUWorkQueue_Admit _ _ _ => true
  | _ => false
  end.

Definition isKVAdmit (c : admission.Call) : bool :=
  match c with
  | admission.WorkQueue_Admit _ _ => true
  | _ => false
  end.

Definition isStoreCompletion (c : admission.Call) : bool :=
  match c with
  | admission.StoreWorkQueue_AdmittedWorkDone _ _ _ _ => true
  | _ => false
  end.

Definition isStoreCall (c : admission.Call) : bool :=
  match c with
  | admission.StoreWorkQueue_Admit _ _ _
  | admission.StoreWorkQueue_AdmittedWorkDone _ _ _ _ => true
  | _ => false
  end.

Definition completions (tr : list admission.Call) : nat :=
  length (filter isCompletion tr).

(** The completion that reports "no work was done" for a token. *)
Definition rollback (w : admission.World) (t : Token) : admission.Call :=
  match t with
  | StoreToken q h =>
      admission.StoreWorkQueue_AdmittedWorkDone
        q h admission.StoreWorkDoneInfo_zero
        (admission.StoreWorkQueue_AdmittedWorkDone_result
           w q h admission.StoreWorkDoneInfo_zero)
  | ElasticToken h =>
      admission.ElasticCPUWorkQueue_AdmittedWorkDone (Some h)
  | KVToken t => admission.WorkQueue_AdmittedWorkDone t
  end.

(** The tokens a Handle holds. *)
Definition held (ah : kvadmission.Handle) : list Token :=
  match kvadmission.storeAdmissionQ ah with
  | Some q => [StoreToken q (kvadmission.storeWorkHandle ah)]
  | None => []
  end
  ++ match kvadmission.ElasticCPUWorkHandle ah with
     | Some h => [ElasticToken h]
     | None => []
     end
  ++ (if kvadmission.callAdmittedWorkDoneOnKVAdmissionQ ah
      then [KVToken (kvadmission.tenantID ah)] else []).

(** An [Admit] call was given the work info [info]. *)
Definition carries (info : admission.WorkInfo) (c : admission.Call) : Prop :=
  match c with
  | admission.StoreWorkQueue_Admit _ swi _ =>
      admission.swwi_WorkInfo swi = info
  | admission.ElasticCPUWorkQueue_Admit _ i _ => i = info
  | admission.WorkQueue_Admit i _ => i = info
  | _ => True
  end.

End Tokens.
End Tokens.

(* ================================================================= *)
(** ** Reading the calls of the weight loop *)

Module LoopTrace.
Section LoopTrace.
Context {E : admission.External}.

(** The provider calls among the calls of the weight loop. *)
Definition isProviderCall (c : kvadmission.LoopCall) : bool :=
  match c with
  | kvadmission.provider_GetTenantWeights _ => true
  | _ => false
  end.

Definition providerCalls (tr : list kvadmission.LoopCall) : nat :=
  length (filter isProviderCall tr).

(** Both weighting settings are off. *)
Definition bothDisabled (sv : admission.Settings) : bool :=
  negb (admission.KVTenantWeightsEnabled sv)
  && negb (admission.KVStoresTenantWeightsEnabled sv).

(** A tick at which both weighting settings are off. *)
Definition disabledTick (s : kvadmission.Select) : bool :=
  match s with
  | kvadmission.ticker_C sv _ => bothDisabled sv
  | kvadmission.stopper_ShouldQuiesce => false
  end.

End LoopTrace.
End LoopTrace.

(* ================================================================= *)
(** ** The classification as the specification words it *)

Module Specified.
Section Specified.
Context {E : admission.External}.

(** Four rules in order, each later one overriding the earlier ones,
    where rule 3 looks at the source the request declares. *)
Definition bypass_declared_source (n : kvadmission.controllerImpl)
  (tenantID : roachpb.TenantID) (ba : roachpb.BatchRequest) : bool :=
  let bypass := roachpb.IsAdmin ba in
  let bypass :=
    if negb (admission.IsSystemTenantID tenantID) then false else bypass in
  let bypass :=
    if roachpb.Source_eqb (roachpb.Source (roachpb.ba_AdmissionHeader ba))
         roachpb.AdmissionHeader_OTHER
    then true else bypass in
  let bypass :=
    if admission.KVBulkOnlyAdmissionControlEnabled (kvadmission.settings n)
       && (admission.NormalPri
           <=? admission.WorkPriority
                 (roachpb.Priority (roachpb.ba_AdmissionHeader ba)))
    then true else bypass in
  bypass.

End Specified.
End Specified.

(* ================================================================= *)
(** ** A concrete environment, for evaluating the functions *)

Module Concrete.
Import MachineInt.

(** Errors are numbered, a store queue is named by its store, a store
    work handle is its [admissionEnabled] flag, an elastic handle is
    numbered; priorities are int8 with [NormalPri = 0], and the system
    tenant is tenant 1. *)
Definition ext : admission.External :=
  {| admission.error := nat;
     admission.StoreWorkQueue := Z;
     admission.StoreWorkHandle := bool;
     admission.StoreWorkHandle_zero := false;
     admission.AdmissionEnabled := fun h => h;
     admission.ElasticCPUWorkHandle := nat;
     admission.WorkPriority := int8;
     admission.NormalPri := 0;
     admission.IsSystemTenantID := fun id => id =? 1;
     admission.CrdbTestBuild := false |}.

Definition err (k : nat) : admission.error (External := ext) := k.
Definition queue (store : Z) : admission.StoreWorkQueue (External := ext) :=
  store.
Definition storeHandle (admissionEnabled : bool)
  : admission.StoreWorkHandle (External := ext) := admissionEnabled.
Definition elasticHandle (k : nat)
  : admission.ElasticCPUWorkHandle (External := ext) := k.

Definition sv : admission.Settings :=
  {| admission.KVBulkOnlyAdmissionControlEnabled := false;
     admission.KVTenantWeightsEnabled := true;
     admission.KVStoresTenantWeightsEnabled := true;
     admission.elasticCPUDurationPerExportRequest := 100000000;
     admission.elasticCPUDurationPerRangefeedScanUnit := 100000000 |}.

(** Both weighting settings off. *)
Definition sv_off : admission.Settings :=
  {| admission.KVBulkOnlyAdmissionControlEnabled := false;
     admission.KVTenantWeightsEnabled := false;
     admission.KVStoresTenantWeightsEnabled := false;
     admission.elasticCPUDurationPerExportRequest := 100000000;
     admission.elasticCPUDurationPerRangefeedScanUnit := 100000000 |}.

(** What the weight provider answers: tenant 2 weighs 3 on the node and
    5 on store 1. *)
Definition weights : kvadmission.TenantWeights :=
  {| kvadmission.Node := Some [(2, 3)];
     kvadmission.Stores :=
       [{| kvadmission.StoreID := 1;
           kvadmission.Weights := Some [(2, 5)] |}] |}.

(** A controller with its three queues, and a store queue for every
    store. *)
Definition controller : kvadmission.controllerImpl (E := ext) :=
  @kvadmission.Build_controllerImpl ext true (fun store => Some store) sv.

(** Every queue admits: the store queue charges, the elastic queue
    hands out handle 7, the KV queue asks for a completion call. *)
Definition admitting : admission.World (E := ext) :=
  @admission.Build_World ext
    1700000000000000000
    (fun _ _ => @admission.Ok ext bool true)
    (fun _ _ _ => None)
    (fun _ _ => @admission.Ok ext (option nat) (Some 7%nat))
    (fun _ => @admission.Ok ext bool true)
    (fun _ => false)
    true.

(** The same, but the elastic CPU queue refuses with error 3. *)
Definition elastic_failing : admission.World (E := ext) :=
  @admission.Build_World ext
    1700000000000000000
    (fun _ _ => @admission.Ok ext bool true)
    (fun _ _ _ => None)
    (fun _ _ => @admission.Err ext (option nat) 3%nat)
    (fun _ => @admission.Ok ext bool true)
    (fun _ => false)
    true.

Definition header (source : roachpb.AdmissionHeader_Source)
  : roachpb.AdmissionHeader :=
  {| roachpb.Priority := 0; roachpb.CreateTime := 0;
     roachpb.Source := source |}.

(** A read from the given source. *)
Definition read_request (source : roachpb.AdmissionHeader_Source)
  : roachpb.BatchRequest :=
  {| roachpb.ba_AdmissionHeader := header source;
     roachpb.Replica_StoreID := 1;
     roachpb.IsAdmin := false;
     roachpb.IsWrite := false;
     roachpb.IsSingleHeartbeatTxnRequest := false;
     roachpb.IsSingleExportRequest := false |}.

(** A write (not a heartbeat) from the given source. *)
Definition write_request (source : roachpb.AdmissionHeader_Source)
  : roachpb.BatchRequest :=
  {| roachpb.ba_AdmissionHeader := header source;
     roachpb.Replica_StoreID := 1;
     roachpb.IsAdmin := false;
     roachpb.IsWrite := true;
     roachpb.IsSingleHeartbeatTxnRequest := false;
     roachpb.IsSingleExportRequest := false |}.

(** A batch with a single export request, which also passes the store
    queue when [isWrite]. *)
Definition export_request (isWrite : bool) : roachpb.BatchRequest :=
  {| roachpb.ba_AdmissionHeader := header roachpb.AdmissionHeader_FROM_SQL;
     roachpb.Replica_StoreID := 1;
     roachpb.IsAdmin := false;
     roachpb.IsWrite := isWrite;
     roachpb.IsSingleHeartbeatTxnRequest := false;
     roachpb.IsSingleExportRequest := true |}.

End Concrete.

(* ================================================================= *)
(** ** Package rafttest: splitting the pending messages *)

Module rafttest.
Section SplitMsgs.

(** What [raftpb.Message] carries besides the three fields read here. *)
Variable Payload : Type.

(** [raft.IsLocalMsgTarget], of package raft. *)
Variable IsLocalMsgTarget : Z -> bool.

(** [raftpb.Message]: [Type] is a [raftpb.MessageType] (an int32), [To]
    and [From] are node ids (uint64). *)
Record Message : Type := {
  Type_ : Z;
  To : Z;
  From : Z;
  Rest : Payload
}.

(** [func isLocalMsg(msg raftpb.Message) bool] *)
Definition isLocalMsg (msg : Message) : bool :=
  (From msg =? To msg)
  || IsLocalMsgTarget (From msg)
  || IsLocalMsgTarget (To msg).

(** The condition of the [if] in the loop of splitMsgs. *)
Definition selected (to typ : Z) (drop : bool) (msg : Message) : bool :=
  (To msg =? to)
  && negb (drop && isLocalMsg msg)
  && ((typ <? 0) || (Type_ msg =? typ)).

(** The loop of splitMsgs from given [toMsgs] and [rmdr]. *)
Fixpoint splitMsgs_loop (msgs : list Message) (to typ : Z) (drop : bool)
  (toMsgs rmdr : list Message) : list Message * list Message :=
  match msgs with
  | [] => (toMsgs, rmdr)
  | msg :: msgs' =>
      if selected to typ drop msg
      then splitMsgs_loop msgs' to typ drop (toMsgs ++ [msg]) rmdr
      else splitMsgs_loop msgs' to typ drop toMsgs (rmdr ++ [msg])
  end.

(** [func splitMsgs(msgs, to, typ, drop) (toMsgs, rmdr []raftpb.Message)] *)
Definition splitMsgs (msgs : list Message) (to typ : Z) (drop : bool)
  : list Message * list Message :=
  splitMsgs_loop msgs to typ drop [] [].

(** The test of Stabilize, line 79: does node [id] have a message to
    receive. *)
Definition hasMsgs (messages : list Message) (id : Z) : bool :=
  (0 <? length (fst (splitMsgs messages id (-1) false)))%nat.

End SplitMsgs.

Arguments Type_ {Payload} m.
Arguments To {Payload} m.
Arguments From {Payload} m.
Arguments Rest {Payload} m.
Arguments isLocalMsg {Payload} IsLocalMsgTarget msg.
Arguments selected {Payload} IsLocalMsgTarget to typ drop msg.
Arguments splitMsgs_loop {Payload} IsLocalMsgTarget
  msgs to typ drop toMsgs rmdr.
Arguments splitMsgs {Payload} IsLocalMsgTarget msgs to typ drop.
Arguments hasMsgs {Payload} IsLocalMsgTarget messages id.

End rafttest.

(* ================================================================= *)
(** ** Reading more of a trace *)

Module Observations.
Section Observations.
Context {E : admission.External}.

(** An [Admit] call that returned an error. *)
Definition isFailedAdmit (c : admission.Call) : bool :=
  match c with
  | admission.StoreWorkQueue_Admit _ _ (admission.Err _)
  | admission.ElasticCPUWorkQueue_Admit _ _ (admission.Err _)
  | admission.WorkQueue_Admit _ (admission.Err _) => true
  | _ => false
  end.

(** The error an [Admit] call returned, if it returned one. *)
Definition failure (c : admission.Call) : option admission.error :=
  match c with
  | admission.StoreWorkQueue_Admit _ _ (admission.Err e)
  | admission.ElasticCPUWorkQueue_Admit _ _ (admission.Err e)
  | admission.WorkQueue_Admit _ (admission.Err e) => Some e
  | _ => None
  end.

Definition isStoreAdmit (c : admission.Call) : bool :=
  match c with
  | admission.StoreWorkQueue_Admit _ _ _ => true
  | _ => false
  end.

Definition isElasticCompletion (c : admission.Call) : bool :=
  match c with
  | admission.ElasticCPUWorkQueue_AdmittedWorkDone _ => true
  | _ => false
  end.

Definition isLog (c : admission.Call) : bool :=
  match c with
  | admission.log_Fatalf _ | admission.log_Errorf _ => true
  | _ => false
  end.

(** The handle a Pacer holds, as a list of tokens. *)
Definition outstanding (p : option kvadmission.Pacer) : list Tokens.Token :=
  match p with
  | Some p0 =>
      match kvadmission.cur p0 with
      | Some h => [Tokens.ElasticToken h]
      | None => []
      end
  | None => []
  end.

(** What a user of a Pacer does with it, one call after the other. *)
Inductive PacerOp : Type :=
| op_Pace (w : admission.World)
| op_Close.

(** The Pacer after the calls, and the calls they made on the queue. *)
Fixpoint runPacer (p : option kvadmission.Pacer) (ops : list PacerOp)
  : option kvadmission.Pacer * list admission.Call :=
  match ops with
  | [] => (p, [])
  | op_Pace w :: ops' =>
      let '(_, p', made) := kvadmission.Pace w p in
      let '(p'', more) := runPacer p' ops' in
      (p'', made ++ more)
  | op_Close :: ops' =>
      let '(p', made) := kvadmission.Close p in
      let '(p'', more) := runPacer p' ops' in
      (p'', made ++ more)
  end.

(** An [Admit] of the elastic CPU queue was asked for [duration] with
    the work info [info]. *)
Definition admitsWith (duration : Z) (info : admission.WorkInfo)
  (c : admission.Call) : Prop :=
  match c with
  | admission.ElasticCPUWorkQueue_Admit d i _ => d = duration /\ i = info
  | _ => True
  end.

(** The bytes and entries reported by [BypassedWorkDone] calls. *)
Definition reportedWriteBytes {Stats : Type}
  (tr : list (kvadmission.StoreCall Stats)) : Z :=
  fold_right
    (fun c acc =>
       match c with
       | kvadmission.StoreWorkQueue_BypassedWorkDone _ _ doneInfo =>
           admission.WriteBytes doneInfo + acc
       | _ => acc
       end) 0 tr.

Definition reportedIngestedBytes {Stats : Type}
  (tr : list (kvadmission.StoreCall Stats)) : Z :=
  fold_right
    (fun c acc =>
       match c with
       | kvadmission.StoreWorkQueue_BypassedWorkDone _ _ doneInfo =>
           admission.IngestedBytes doneInfo + acc
       | _ => acc
       end) 0 tr.

Definition reportedEntries {Stats : Type}
  (tr : list (kvadmission.StoreCall Stats)) : Z :=
  fold_right
    (fun c acc =>
       match c with
       | kvadmission.StoreWorkQueue_BypassedWorkDone _ numEntries _ =>
           numEntries + acc
       | _ => acc
       end) 0 tr.


Definition isTickerStop (c : kvadmission.LoopCall) : bool :=
  match c with
  | kvadmission.ticker_Stop => true
  | _ => false
  end.

End Observations.
End Observations.

(* ================================================================= *)
(** ** More concrete inputs *)

Module Examples.

Definition info : admission.WorkInfo :=
  {| admission.TenantID := 1; admission.Priority := 0;
     admission.CreateTime := 5; admission.BypassAdmission := false |}.

(** A Pacer with no handle, and one that holds handle 7. *)
Definition idle : kvadmission.Pacer (E := Concrete.ext) :=
  @kvadmission.Build_Pacer Concrete.ext 100000000 info None.

Definition holding : kvadmission.Pacer (E := Concrete.ext) :=
  @kvadmission.Build_Pacer Concrete.ext 100000000 info
    (Some (Concrete.elasticHandle 7)).

(** The store queue admits without charging: its handle says that
    admission is not enabled. *)
Definition exempting : admission.World (E := Concrete.ext) :=
  @admission.Build_World Concrete.ext
    1700000000000000000
    (fun _ _ => @admission.Ok Concrete.ext bool false)
    (fun _ _ _ => None)
    (fun _ _ => @admission.Ok Concrete.ext (option nat) (Some 7%nat))
    (fun _ => @admission.Ok Concrete.ext bool true)
    (fun _ => false)
    true.

(** The store queue refuses with error 5. *)
Definition store_failing : admission.World (E := Concrete.ext) :=
  @admission.Build_World Concrete.ext
    1700000000000000000
    (fun _ _ => @admission.Err Concrete.ext bool 5%nat)
    (fun _ _ _ => None)
    (fun _ _ => @admission.Ok Concrete.ext (option nat) (Some 7%nat))
    (fun _ => @admission.Ok Concrete.ext bool true)
    (fun _ => false)
    true.

(** Follower writes: 3 entries and 10 write bytes; 4 entries and no
    bytes. *)
Definition follower_bytes : kvadmission.FollowerStoreWriteBytes :=
  {| kvadmission.NumEntries := 3;
     kvadmission.StoreWorkDoneInfo :=
       {| admission.WriteBytes := 10; admission.IngestedBytes := 0 |} |}.

Definition follower_entries_only : kvadmission.FollowerStoreWriteBytes :=
  {| kvadmission.NumEntries := 4;
     kvadmission.StoreWorkDoneInfo := admission.StoreWorkDoneInfo_zero |}.

(** Two objects, the second one released to the pool with bytes left in
    it. *)
Definition dirty_pool : kvadmission.PoolState :=
  {| kvadmission.objects :=
       [admission.StoreWorkDoneInfo_zero;
        {| admission.WriteBytes := 9; admission.IngestedBytes := 4 |}];
     kvadmission.storeWriteBytesPool := [1%nat] |}.

(** Messages between nodes 1, 2 and 3; a node id above 1000 is a local
    target. *)
Definition isLocalTarget (id : Z) : bool := 1000 <? id.

Definition msg (typ to from : Z) : rafttest.Message nat :=
  {| rafttest.Type_ := typ; rafttest.To := to; rafttest.From := from;
     rafttest.Rest := 0%nat |}.

Definition pending : list (rafttest.Message nat) :=
  [msg 3 2 1; msg 4 3 1; msg 3 2 3; msg 5 2 2].

End Examples.

(* ================================================================= *)
(** * Properties *)

Section MachineIntFacts.
Import MachineInt.

Lemma wrap_add_l (w x y : Z) : wrap w (wrap w x + y) = wrap w (x + y).
Proof.
  unfold wrap.
  f_equal.
  replace ((x + 2 ^ (w - 1)) mod 2 ^ w - 2 ^ (w - 1) + y + 2 ^ (w - 1))
    with ((x + 2 ^ (w - 1)) mod 2 ^ w + y) by ring.
  rewrite Zplus_mod_idemp_l.
  f_equal. ring.
Qed.

Lemma wrap_add_r (w x y : Z) : wrap w (x + wrap w y) = wrap w (x + y).
Proof.
  rewrite (Z.add_comm x (wrap w y)), wrap_add_l.
  f_equal. ring.
Qed.

Lemma add64_comm (x y : Z) : add64 x y = add64 y x.
Proof. unfold add64. f_equal. ring. Qed.

Lemma add64_assoc (x y z : Z) : add64 (add64 x y) z = add64 x (add64 y z).
Proof.
  unfold add64, int64.
  rewrite wrap_add_l, wrap_add_r.
  f_equal. ring.
Qed.

Lemma add64_exact (x y : Z) :
  in_int64 (x + y) -> add64 x y = x + y.
Proof.
  unfold in_int64, add64, int64, wrap. intros H.
  change (2 ^ (64 - 1)) with (2 ^ 63).
  assert ((x + y + 2 ^ 63) mod 2 ^ 64 = x + y + 2 ^ 63) as ->.
  { apply Z.mod_small. change (2 ^ 64) with (2 ^ 63 + 2 ^ 63). lia. }
  ring.
Qed.

End MachineIntFacts.

Section MergeFacts.
Import MachineInt kvadmission.

(** Merge adds nothing but the three counters: when no sum leaves the
    int64 range the result is the exact field-wise sum. *)
Lemma Merge_exact (a b : FollowerStoreWriteBytes) :
  in_int64 (NumEntries a + NumEntries b) ->
  in_int64 (admission.WriteBytes (StoreWorkDoneInfo a)
            + admission.WriteBytes (StoreWorkDoneInfo b)) ->
  in_int64 (admission.IngestedBytes (StoreWorkDoneInfo a)
            + admission.IngestedBytes (StoreWorkDoneInfo b)) ->
  Merge a b =
  {| NumEntries := NumEntries a + NumEntries b;
     StoreWorkDoneInfo :=
       {| admission.WriteBytes :=
            admission.WriteBytes (StoreWorkDoneInfo a)
            + admission.WriteBytes (StoreWorkDoneInfo b);
          admission.IngestedBytes :=
            admission.IngestedBytes (StoreWorkDoneInfo a)
            + admission.IngestedBytes (StoreWorkDoneInfo b) |} |}.
Proof.
  intros H1 H2 H3. unfold Merge.
  rewrite !add64_exact by assumption. reflexivity.
Qed.

(** C7. [FollowerStoreWriteBytes.Merge] adds field by field (Go's int64
    [+=] on the entry count, the write bytes and the ingested bytes), and
    it is commutative and associative: [Merge (Merge a b) c] and
    [Merge a (Merge b c)] have the same three counters, and so do
    [Merge a b] and [Merge b a]. *)
Theorem Merge_fieldwise_comm_assoc (a b c : FollowerStoreWriteBytes) :
  (NumEntries (Merge a b) = add64 (NumEntries a) (NumEntries b)
   /\ admission.WriteBytes (StoreWorkDoneInfo (Merge a b))
      = add64 (admission.WriteBytes (StoreWorkDoneInfo a))
              (admission.WriteBytes (StoreWorkDoneInfo b))
   /\ admission.IngestedBytes (StoreWorkDoneInfo (Merge a b))
      = add64 (admission.IngestedBytes (StoreWorkDoneInfo a))
              (admission.IngestedBytes (StoreWorkDoneInfo b)))
  /\ Merge (Merge a b) c = Merge a (Merge b c)
  /\ Merge a b = Merge b a.
Proof.
  split; [repeat split|split].
  - unfold Merge; simpl. now rewrite !add64_assoc.
  - unfold Merge. f_equal; [|f_equal]; apply add64_comm.
Qed.

End MergeFacts.

(* ================================================================= *)
(** ** Case analysis of AdmitKVWork *)

(** Splits on what AdmitKVWork branches on, in the order of the code:
    the nil check, the kind of request, the store queue and its answer,
    then the answer of the elastic CPU queue or of the KV queue. *)
Ltac admit_step :=
  match goal with
  | |- context [kvadmission.kvAdmissionQ ?n] =>
      destruct (kvadmission.kvAdmissionQ n) eqn:?
  | |- context [roachpb.IsWrite ?ba] =>
      destruct (roachpb.IsWrite ba) eqn:?
  | |- context [roachpb.IsSingleHeartbeatTxnRequest ?ba] =>
      destruct (roachpb.IsSingleHeartbeatTxnRequest ba) eqn:?
  | |- context [kvadmission.storeGrantCoords ?n ?s] =>
      destruct (kvadmission.storeGrantCoords n s) eqn:?
  | |- context [admission.StoreWorkQueue_Admit_result ?w ?q ?i] =>
      destruct (admission.StoreWorkQueue_Admit_result w q i) eqn:?
  | |- context [admission.AdmissionEnabled ?h] =>
      destruct (admission.AdmissionEnabled h) eqn:?
  | |- context [roachpb.IsSingleExportRequest ?ba] =>
      destruct (roachpb.IsSingleExportRequest ba) eqn:?
  | |- context [admission.ElasticCPUWorkQueue_Admit_result ?w ?d ?i] =>
      destruct (admission.ElasticCPUWorkQueue_Admit_result w d i) eqn:?
  | |- context [admission.WorkQueue_Admit_result ?w ?i] =>
      destruct (admission.WorkQueue_Admit_result w i) eqn:?
  end.

Ltac admit_cases :=
  unfold kvadmission.AdmitKVWork, kvadmission.runFunc,
    kvadmission.admitStore, kvadmission.admitCPU;
  repeat (admit_step;
          cbn [kvadmission.bind kvadmission.call kvadmission.defer
               kvadmission.set_ah kvadmission.get_ah kvadmission.ret
               kvadmission.return_ negb andb fst snd
               kvadmission.ah kvadmission.deferred kvadmission.calls]);
  cbn [kvadmission.bind kvadmission.call kvadmission.defer
       kvadmission.set_ah kvadmission.get_ah kvadmission.ret
       kvadmission.return_ negb andb fst snd app flat_map
       kvadmission.runDeferred
       kvadmission.ah kvadmission.deferred kvadmission.calls
       kvadmission.tenantID kvadmission.storeAdmissionQ
       kvadmission.storeWorkHandle kvadmission.ElasticCPUWorkHandle
       kvadmission.callAdmittedWorkDoneOnKVAdmissionQ].

(* ================================================================= *)
(** ** Classification of a request *)

Section Classification.
Import kvadmission.
Context {E : admission.External}.

Lemma Source_eqb_eq (a b : roachpb.AdmissionHeader_Source) :
  roachpb.Source_eqb a b = true <-> a = b.
Proof. destruct a, b; simpl; split; intros H; congruence. Qed.

(** The source AdmitKVWork works with: the declared one for the system
    tenant, [FROM_SQL] for every other tenant. *)
Lemma classify_source (n : controllerImpl) (tenantID : roachpb.TenantID)
  (ba : roachpb.BatchRequest) :
  snd (classify n tenantID ba)
  = if admission.IsSystemTenantID tenantID
    then roachpb.Source (roachpb.ba_AdmissionHeader ba)
    else roachpb.AdmissionHeader_FROM_SQL.
Proof.
  unfold classify. destruct (admission.IsSystemTenantID tenantID); reflexivity.
Qed.

(** The four rules one by one, the strongest first. *)
Lemma classify_rules (n : controllerImpl) (tenantID : roachpb.TenantID)
  (ba : roachpb.BatchRequest) :
  let pri :=
    admission.WorkPriority (roachpb.Priority (roachpb.ba_AdmissionHeader ba)) in
  let bulk :=
    admission.KVBulkOnlyAdmissionControlEnabled (settings n)
    && (admission.NormalPri <=? pri) in
  let source := snd (classify n tenantID ba) in
  let bypass := fst (classify n tenantID ba) in
  (bulk = true -> bypass = true)
  /\ (source = roachpb.AdmissionHeader_OTHER -> bypass = true)
  /\ (bulk = false -> source <> roachpb.AdmissionHeader_OTHER ->
      admission.IsSystemTenantID tenantID = false -> bypass = false)
  /\ (bulk = false -> source <> roachpb.AdmissionHeader_OTHER ->
      admission.IsSystemTenantID tenantID = true ->
      bypass = roachpb.IsAdmin ba).
Proof.
  unfold classify. cbv zeta.
  destruct (admission.IsSystemTenantID tenantID),
    (admission.KVBulkOnlyAdmissionControlEnabled (settings n)),
    (admission.NormalPri <=? _),
    (roachpb.Source (roachpb.ba_AdmissionHeader ba)),
    (roachpb.IsAdmin ba); simpl; repeat split; intros; congruence.
Qed.

End Classification.

(** C3 fails as it is worded.  A request of tenant 2 that declares the
    source OTHER is bypassed by the four rules read with the declared
    source in rule 3, and it is not bypassed by AdmitKVWork, which has
    replaced the source by FROM_SQL before it looks at it. *)
Lemma bypass_declared_OTHER_counterexample :
  roachpb.Source
    (roachpb.ba_AdmissionHeader
       (Concrete.read_request roachpb.AdmissionHeader_OTHER))
  = roachpb.AdmissionHeader_OTHER
  /\ Specified.bypass_declared_source (E := Concrete.ext)
       Concrete.controller 2
       (Concrete.read_request roachpb.AdmissionHeader_OTHER) = true
  /\ admission.BypassAdmission
       (kvadmission.admissionInfo (E := Concrete.ext)
          Concrete.controller Concrete.admitting 2
          (Concrete.read_request roachpb.AdmissionHeader_OTHER)) = false.
Proof. repeat split. Qed.

Section ClassificationClaims.
Import kvadmission.
Context {E : admission.External}.

(** C3 (amended).  AdmitKVWork computes the bypass decision in this
    precedence order, each later rule overriding the earlier ones:
    (1) bypass = IsAdmin; (2) for a tenant other than the system tenant
    bypass is false and the source is FROM_SQL; (3) if the source after
    rule 2 (the declared source for the system tenant, FROM_SQL otherwise)
    is OTHER, bypass is true; (4) if the bulk-only setting is on and the
    priority is at least NormalPri, bypass is true.  The WorkInfo built
    from it carries the tenant, the priority, the create time and this
    bypass, and every Admit call of AdmitKVWork is given that WorkInfo. *)
Theorem classify_precedence (n : controllerImpl) (w : admission.World)
  (tenantID : roachpb.TenantID) (ba : roachpb.BatchRequest) :
  let hdr := roachpb.ba_AdmissionHeader ba in
  let pri := admission.WorkPriority (roachpb.Priority hdr) in
  let source :=
    if admission.IsSystemTenantID tenantID
    then roachpb.Source hdr
    else roachpb.AdmissionHeader_FROM_SQL in
  let rule1 := roachpb.IsAdmin ba in
  let rule2 := if admission.IsSystemTenantID tenantID then rule1 else false in
  let rule3 :=
    if roachpb.Source_eqb source roachpb.AdmissionHeader_OTHER
    then true else rule2 in
  let rule4 :=
    if admission.KVBulkOnlyAdmissionControlEnabled (settings n)
       && (admission.NormalPri <=? pri)
    then true else rule3 in
  classify n tenantID ba = (rule4, source)
  /\ rule4
     = (admission.KVBulkOnlyAdmissionControlEnabled (settings n)
        && (admission.NormalPri <=? pri))
       || (admission.IsSystemTenantID tenantID
           && (roachpb.Source_eqb (roachpb.Source hdr)
                 roachpb.AdmissionHeader_OTHER
               || roachpb.IsAdmin ba))
  /\ admissionInfo n w tenantID ba
     = {| admission.TenantID := tenantID;
          admission.Priority := pri;
          admission.CreateTime :=
            if negb rule4 && (roachpb.CreateTime hdr =? 0)
            then admission.Now_UnixNano w
            else roachpb.CreateTime hdr;
          admission.BypassAdmission := rule4 |}
  /\ Forall (Tokens.carries (admissionInfo n w tenantID ba))
            (snd (AdmitKVWork n w tenantID ba)).
Proof.
  cbv zeta.
  assert (Hc : classify n tenantID ba
               = (if admission.KVBulkOnlyAdmissionControlEnabled (settings n)
                     && (admission.NormalPri
                         <=? admission.WorkPriority
                               (roachpb.Priority (roachpb.ba_AdmissionHeader ba)))
                  then true
                  else if roachpb.Source_eqb
                            (if admission.IsSystemTenantID tenantID
                             then roachpb.Source (roachpb.ba_AdmissionHeader ba)
                             else roachpb.AdmissionHeader_FROM_SQL)
                            roachpb.AdmissionHeader_OTHER
                       then true
                       else if admission.IsSystemTenantID tenantID
                            then roachpb.IsAdmin ba else false,
                  if admission.IsSystemTenantID tenantID
                  then roachpb.Source (roachpb.ba_AdmissionHeader ba)
                  else roachpb.AdmissionHeader_FROM_SQL)).
  { unfold classify.
    destruct (admission.IsSystemTenantID tenantID),
      (admission.KVBulkOnlyAdmissionControlEnabled (settings n)),
      (admission.NormalPri <=? _),
      (roachpb.Source (roachpb.ba_AdmissionHeader ba)); reflexivity. }
  split; [exact Hc|].
  split.
  { destruct (admission.IsSystemTenantID tenantID),
      (admission.KVBulkOnlyAdmissionControlEnabled (settings n)),
      (admission.NormalPri <=? _),
      (roachpb.Source (roachpb.ba_AdmissionHeader ba)),
      (roachpb.IsAdmin ba); reflexivity. }
  split.
  { unfold admissionInfo. rewrite Hc. reflexivity. }
  admit_cases; repeat constructor.
Qed.

(** C5.  With a zero create time in the request: when the request is not
    bypassed, the WorkInfo gets the clock reading of the call, which is
    at or after any instant [callTime] that precedes the reading; when
    the request is bypassed, the create time stays zero. *)
Theorem createTime_default (n : controllerImpl) (w : admission.World)
  (tenantID : roachpb.TenantID) (ba : roachpb.BatchRequest) (callTime : Z) :
  roachpb.CreateTime (roachpb.ba_AdmissionHeader ba) = 0 ->
  callTime <= admission.Now_UnixNano w ->
  let info := admissionInfo n w tenantID ba in
  (admission.BypassAdmission info = false ->
   admission.CreateTime info = admission.Now_UnixNano w
   /\ callTime <= admission.CreateTime info)
  /\ (admission.BypassAdmission info = true ->
      admission.CreateTime info = 0).
Proof.
  intros Hzero Hclock. unfold admissionInfo. simpl.
  rewrite Hzero. simpl.
  destruct (fst (classify n tenantID ba)); simpl; split; intros H;
    try discriminate; auto.
Qed.

End ClassificationClaims.

(** A non-bypassed and a bypassed request with create time 0. *)
Lemma createTime_default_witness :
  roachpb.CreateTime
    (roachpb.ba_AdmissionHeader
       (Concrete.read_request roachpb.AdmissionHeader_FROM_SQL)) = 0
  /\ 1600000000000000000
     <= admission.Now_UnixNano (E := Concrete.ext) Concrete.admitting
  /\ admission.CreateTime
       (kvadmission.admissionInfo (E := Concrete.ext)
          Concrete.controller Concrete.admitting 1
          (Concrete.read_request roachpb.AdmissionHeader_FROM_SQL))
     = 1700000000000000000.
Proof.
  split; [reflexivity|].
  split; [vm_compute; discriminate|].
  apply (createTime_default (E := Concrete.ext)
           Concrete.controller Concrete.admitting 1
           (Concrete.read_request roachpb.AdmissionHeader_FROM_SQL)
           1600000000000000000).
  - reflexivity.
  - vm_compute; discriminate.
  - reflexivity.
Defined.

(* ================================================================= *)
(** ** Rollback when admission fails *)

Section Rollback.
Import kvadmission.
Context {E : admission.External}.

(** C1.  When AdmitKVWork returns an error, the caller gets the empty
    Handle, and the calls made are the Admit calls followed by a
    completion with the zero StoreWorkDoneInfo for every token those
    Admit calls had acquired: the tokens released are the tokens
    acquired, so none is left unreleased. *)
Theorem AdmitKVWork_error_rolls_back (n : controllerImpl)
  (w : admission.World) (tenantID : roachpb.TenantID)
  (ba : roachpb.BatchRequest) (handle : Handle) (err : admission.error)
  (tr : list admission.Call) :
  AdmitKVWork n w tenantID ba = ((handle, Some err), tr) ->
  handle = Handle_zero
  /\ (let admits := filter Tokens.isAdmit tr in
      tr = admits ++ map (Tokens.rollback w) (rev (Tokens.acquired admits)))
  /\ Tokens.released tr = Tokens.acquired tr
  /\ (length (Tokens.acquired tr) <= 1)%nat.
Proof.
  intros H. revert H. admit_cases; intros H; inversion H; subst; clear H;
    cbn;
    repeat match goal with
           | Hen : admission.AdmissionEnabled _ = _ |- _ => rewrite Hen
           end;
    cbn; repeat split; auto.
Qed.

End Rollback.

(** The store queue admits a write with charging, the batch is a single
    export request, and the elastic CPU queue refuses with error 3: the
    store token is given back with zero bytes before error 3 is
    returned with the empty Handle. *)
Lemma AdmitKVWork_error_rolls_back_witness :
  kvadmission.AdmitKVWork (E := Concrete.ext)
    Concrete.controller Concrete.elastic_failing 1
    (Concrete.export_request true)
  = ((kvadmission.Handle_zero, Some (Concrete.err 3)),
     [admission.StoreWorkQueue_Admit (Concrete.queue 1)
        {| admission.swwi_WorkInfo :=
             {| admission.TenantID := 1; admission.Priority := 0;
                admission.CreateTime := 1700000000000000000;
                admission.BypassAdmission := false |} |}
        (admission.Ok (Concrete.storeHandle true));
      admission.ElasticCPUWorkQueue_Admit 100000000
        {| admission.TenantID := 1; admission.Priority := 0;
           admission.CreateTime := 1700000000000000000;
           admission.BypassAdmission := false |}
        (admission.Err (Concrete.err 3));
      admission.StoreWorkQueue_AdmittedWorkDone
        (Concrete.queue 1) (Concrete.storeHandle true)
        admission.StoreWorkDoneInfo_zero None])
  /\ Tokens.released
       (snd (kvadmission.AdmitKVWork (E := Concrete.ext)
               Concrete.controller Concrete.elastic_failing 1
               (Concrete.export_request true)))
     = [Tokens.StoreToken (Concrete.queue 1) (Concrete.storeHandle true)].
Proof.
  split; [reflexivity|].
  pose proof (AdmitKVWork_error_rolls_back (E := Concrete.ext)
                Concrete.controller Concrete.elastic_failing 1
                (Concrete.export_request true)
                kvadmission.Handle_zero (Concrete.err 3)
                (snd (kvadmission.AdmitKVWork (E := Concrete.ext)
                        Concrete.controller Concrete.elastic_failing 1
                        (Concrete.export_request true)))
                eq_refl) as H.
  destruct H as (_ & _ & Hrel & _).
  rewrite Hrel. reflexivity.
Defined.

(* ================================================================= *)
(** ** Completion of admitted work *)

(** C2 fails as it is worded.  A read of tenant 1 acquires one token
    (the KV queue asks for a completion call), and AdmittedKVWorkDone on
    its Handle makes two completion calls: line 275 calls
    [elasticCPUWorkQueue.AdmittedWorkDone] whether or not there is an
    elastic handle, here with nil. *)
Lemma AdmittedKVWorkDone_calls_counterexample :
  snd (fst (kvadmission.AdmitKVWork (E := Concrete.ext)
              Concrete.controller Concrete.admitting 1
              (Concrete.read_request roachpb.AdmissionHeader_FROM_SQL)))
  = None
  /\ length
       (Tokens.acquired
          (snd (kvadmission.AdmitKVWork (E := Concrete.ext)
                  Concrete.controller Concrete.admitting 1
                  (Concrete.read_request roachpb.AdmissionHeader_FROM_SQL))))
     = 1%nat
  /\ kvadmission.AdmittedKVWorkDone (E := Concrete.ext)
       Concrete.controller Concrete.admitting
       (fst (fst (kvadmission.AdmitKVWork (E := Concrete.ext)
                    Concrete.controller Concrete.admitting 1
                    (Concrete.read_request roachpb.AdmissionHeader_FROM_SQL))))
       None
     = [admission.ElasticCPUWorkQueue_AdmittedWorkDone None;
        admission.WorkQueue_AdmittedWorkDone 1]
  /\ Tokens.completions
       (kvadmission.AdmittedKVWorkDone (E := Concrete.ext)
          Concrete.controller Concrete.admitting
          (fst (fst (kvadmission.AdmitKVWork (E := Concrete.ext)
                       Concrete.controller Concrete.admitting 1
                       (Concrete.read_request
                          roachpb.AdmissionHeader_FROM_SQL))))
          None)
     = 2%nat.
Proof. repeat split. Qed.

Section Completion.
Import kvadmission.
Context {E : admission.External}.

(** What AdmittedKVWorkDone releases is what the Handle holds, the
    elastic handle first and the store handle last. *)
Lemma AdmittedKVWorkDone_released (n : controllerImpl) (w : admission.World)
  (ah : Handle) (writeBytes : option StoreWriteBytes) :
  Permutation (Tokens.released (AdmittedKVWorkDone n w ah writeBytes))
              (Tokens.held ah).
Proof.
  unfold AdmittedKVWorkDone, Tokens.held, Tokens.released.
  destruct ah as [t sq sh eh kv]; cbn.
  destruct eh, kv, sq; cbn;
    repeat match goal with
           | |- context [match ?x with Some _ => _ | None => _ end] =>
               destruct x; cbn
           | |- context [if ?b then _ else _] => destruct b; cbn
           end;
    first [ apply Permutation_refl
          | apply perm_swap
          | apply (Permutation_app_comm [_; _] [_]) ].
Qed.

(** C2 (amended).  After a successful AdmitKVWork that acquired k
    tokens (k is 0, 1 or 2), one AdmittedKVWorkDone on the returned
    Handle makes exactly k completion calls that carry a token: each
    acquired token is released once, none twice, and none that was not
    acquired.  It also calls AdmittedWorkDone on the elastic CPU queue
    with a nil handle when the Handle holds no elastic handle, which is
    the only completion call that releases nothing. *)
Theorem AdmittedKVWorkDone_completes_each_token_once (n : controllerImpl)
  (w : admission.World) (tenantID : roachpb.TenantID)
  (ba : roachpb.BatchRequest) (handle : Handle) (tr : list admission.Call)
  (k : nat) (w' : admission.World) (writeBytes : option StoreWriteBytes) :
  AdmitKVWork n w tenantID ba = ((handle, None), tr) ->
  length (Tokens.acquired tr) = k ->
  let done := AdmittedKVWorkDone n w' handle writeBytes in
  (k <= 2)%nat
  /\ Tokens.released tr = []
  /\ Tokens.held handle = Tokens.acquired tr
  /\ Permutation (Tokens.released done) (Tokens.acquired tr)
  /\ NoDup (Tokens.released done)
  /\ length (Tokens.released done) = k
  /\ Tokens.completions done
     = (k + match ElasticCPUWorkHandle handle with
            | Some _ => 0
            | None => 1
            end)%nat
  /\ (forall c, In c done -> Tokens.isCompletion c = true ->
      Tokens.released_by c = [] ->
      c = admission.ElasticCPUWorkQueue_AdmittedWorkDone None).
Proof.
  intros H Hk. cbv zeta.
  assert (Hheld : Tokens.held handle = Tokens.acquired tr
                  /\ Tokens.released tr = []
                  /\ (length (Tokens.acquired tr) <= 2)%nat
                  /\ NoDup (Tokens.acquired tr)).
  { revert H. admit_cases; intros H; inversion H; subst; clear H;
      cbn;
      repeat match goal with
             | Hen : admission.AdmissionEnabled _ = _ |- _ => rewrite Hen
             end;
      cbn;
      repeat match goal with
             | |- context [match ?x with Some _ => _ | None => _ end] =>
                 destruct x; cbn
             | |- context [if ?b then _ else _] => destruct b; cbn
             end;
      (split; [reflexivity|]); (split; [reflexivity|]);
      (split; [lia|]);
      repeat constructor; cbn; intuition discriminate. }
  destruct Hheld as (Hheld & Hrel & Hlen & Hnd).
  pose proof (AdmittedKVWorkDone_released n w' handle writeBytes) as Hperm.
  rewrite Hheld in Hperm.
  split; [lia|].
  split; [exact Hrel|].
  split; [exact Hheld|].
  split; [exact Hperm|].
  split.
  { eapply Permutation_NoDup; [apply Permutation_sym; exact Hperm|exact Hnd]. }
  split; [rewrite (Permutation_length Hperm); exact Hk|].
  split.
  - rewrite <- Hk, <- Hheld.
    unfold AdmittedKVWorkDone, Tokens.held, Tokens.completions.
    destruct handle as [t sq sh eh kv]; cbn.
    destruct eh, kv, sq; cbn;
      repeat match goal with
             | |- context [match ?x with Some _ => _ | None => _ end] =>
                 destruct x; cbn
             | |- context [if ?b then _ else _] => destruct b; cbn
             end; reflexivity.
  - intros c Hin Hc Hnone.
    unfold AdmittedKVWorkDone in Hin.
    apply in_app_or in Hin. destruct Hin as [Hin|Hin].
    { destruct Hin as [<-|[]].
      destruct (ElasticCPUWorkHandle handle); [discriminate|reflexivity]. }
    apply in_app_or in Hin. destruct Hin as [Hin|Hin].
    { destruct (callAdmittedWorkDoneOnKVAdmissionQ handle);
        [destruct Hin as [<-|[]]; discriminate|destruct Hin]. }
    destruct (storeAdmissionQ handle); [|destruct Hin].
    destruct Hin as [<-|Hin]; [discriminate|].
    repeat match type of Hin with
           | In _ (match ?x with Some _ => _ | None => _ end) => destruct x
           | In _ (if ?b then _ else _) => destruct b
           end;
      repeat (destruct Hin as [Hin|Hin]; [subst c; discriminate|]);
      destruct Hin.
Qed.

End Completion.

(** A write that is a single export request acquires a store token and
    an elastic token, and AdmittedKVWorkDone makes two completion calls. *)
Lemma AdmittedKVWorkDone_completes_each_token_once_witness :
  Tokens.acquired
    (snd (kvadmission.AdmitKVWork (E := Concrete.ext)
            Concrete.controller Concrete.admitting 1
            (Concrete.export_request true)))
  = [Tokens.StoreToken (Concrete.queue 1) (Concrete.storeHandle true);
     Tokens.ElasticToken (Concrete.elasticHandle 7)]
  /\ Tokens.completions
       (kvadmission.AdmittedKVWorkDone (E := Concrete.ext)
          Concrete.controller Concrete.admitting
          (fst (fst (kvadmission.AdmitKVWork (E := Concrete.ext)
                       Concrete.controller Concrete.admitting 1
                       (Concrete.export_request true))))
          None)
     = 2%nat.
Proof.
  split; [reflexivity|].
  pose proof (AdmittedKVWorkDone_completes_each_token_once
                (E := Concrete.ext)
                Concrete.controller Concrete.admitting 1
                (Concrete.export_request true)
                (fst (fst (kvadmission.AdmitKVWork (E := Concrete.ext)
                             Concrete.controller Concrete.admitting 1
                             (Concrete.export_request true))))
                (snd (kvadmission.AdmitKVWork (E := Concrete.ext)
                        Concrete.controller Concrete.admitting 1
                        (Concrete.export_request true)))
                2%nat Concrete.admitting None eq_refl eq_refl) as H.
  destruct H as (_ & _ & _ & _ & _ & _ & Hc & _).
  exact Hc.
Defined.

(* ================================================================= *)
(** ** The store work queue *)

(** C4 fails as it is worded.  A write of the system tenant with source
    OTHER is bypassed, and it is still admitted to the store work queue
    (lines 215-234 test [IsWrite] and [IsSingleHeartbeatTxnRequest]
    only): the Handle holds the store token and AdmittedKVWorkDone calls
    the store queue's AdmittedWorkDone. *)
Lemma bypassed_write_holds_store_token_counterexample :
  admission.BypassAdmission
    (kvadmission.admissionInfo (E := Concrete.ext)
       Concrete.controller Concrete.admitting 1
       (Concrete.write_request roachpb.AdmissionHeader_OTHER)) = true
  /\ kvadmission.storeAdmissionQ
       (fst (fst (kvadmission.AdmitKVWork (E := Concrete.ext)
                    Concrete.controller Concrete.admitting 1
                    (Concrete.write_request roachpb.AdmissionHeader_OTHER))))
     = Some (Concrete.queue 1)
  /\ filter Tokens.isStoreCompletion
       (kvadmission.AdmittedKVWorkDone (E := Concrete.ext)
          Concrete.controller Concrete.admitting
          (fst (fst (kvadmission.AdmitKVWork (E := Concrete.ext)
                       Concrete.controller Concrete.admitting 1
                       (Concrete.write_request
                          roachpb.AdmissionHeader_OTHER))))
          None)
     = [admission.StoreWorkQueue_AdmittedWorkDone
          (Concrete.queue 1) (Concrete.storeHandle true)
          admission.StoreWorkDoneInfo_zero None].
Proof. repeat split. Qed.

Section StoreQueue.
Import kvadmission.
Context {E : admission.External}.

(** AdmittedKVWorkDone calls the store queue only for a Handle that
    holds a store queue. *)
Lemma AdmittedKVWorkDone_no_store_call (n : controllerImpl)
  (w : admission.World) (ah : Handle) (writeBytes : option StoreWriteBytes) :
  storeAdmissionQ ah = None ->
  filter Tokens.isStoreCall (AdmittedKVWorkDone n w ah writeBytes) = [].
Proof.
  intros Hq. unfold AdmittedKVWorkDone. rewrite Hq. cbn.
  destruct (callAdmittedWorkDoneOnKVAdmissionQ ah); reflexivity.
Qed.

(** C4 (amended).  When the queues are absent, or the target store has
    no queue, or the request is not a write, or it is a single
    heartbeat-transaction request, AdmitKVWork makes no call on a store
    queue, the Handle it returns holds no store queue token, and
    AdmittedKVWorkDone on that Handle makes no call on a store queue.
    (Being an admin request or being bypassed is not among the
    conditions.) *)
Theorem no_store_token_without_store_admission (n : controllerImpl)
  (w : admission.World) (tenantID : roachpb.TenantID)
  (ba : roachpb.BatchRequest) (w' : admission.World)
  (writeBytes : option StoreWriteBytes) :
  kvAdmissionQ n = false
  \/ storeGrantCoords n (MachineInt.int32 (roachpb.Replica_StoreID ba)) = None
  \/ roachpb.IsWrite ba = false
  \/ roachpb.IsSingleHeartbeatTxnRequest ba = true ->
  let handle := fst (fst (AdmitKVWork n w tenantID ba)) in
  storeAdmissionQ handle = None
  /\ filter Tokens.isStoreCall (snd (AdmitKVWork n w tenantID ba)) = []
  /\ filter Tokens.isStoreCall (AdmittedKVWorkDone n w' handle writeBytes)
     = [].
Proof.
  intros Hcond. cbv zeta.
  assert (Hq : storeAdmissionQ (fst (fst (AdmitKVWork n w tenantID ba))) = None
               /\ filter Tokens.isStoreCall
                    (snd (AdmitKVWork n w tenantID ba)) = []).
  { revert Hcond. admit_cases; intros Hcond;
      try (split; reflexivity);
      exfalso; intuition congruence. }
  destruct Hq as (Hq & Htr).
  repeat split; auto using AdmittedKVWorkDone_no_store_call.
Qed.

(** C10.  The Handle AdmitKVWork returns never holds both an elastic
    CPU handle and the flag to report completion on the KV work queue,
    and AdmitKVWork never calls Admit on both the elastic CPU queue and
    the KV work queue. *)
Theorem Handle_elastic_or_kv_not_both (n : controllerImpl)
  (w : admission.World) (tenantID : roachpb.TenantID)
  (ba : roachpb.BatchRequest) :
  let handle := fst (fst (AdmitKVWork n w tenantID ba)) in
  let tr := snd (AdmitKVWork n w tenantID ba) in
  (ElasticCPUWorkHandle handle <> None ->
   callAdmittedWorkDoneOnKVAdmissionQ handle = false)
  /\ (callAdmittedWorkDoneOnKVAdmissionQ handle = true ->
      ElasticCPUWorkHandle handle = None)
  /\ (filter Tokens.isElasticAdmit tr = [] \/ filter Tokens.isKVAdmit tr = []).
Proof.
  cbv zeta. admit_cases; cbn; repeat split; intros; auto; congruence.
Qed.

End StoreQueue.

(** A read never reaches the store queue. *)
Lemma no_store_token_without_store_admission_witness :
  roachpb.IsWrite (Concrete.read_request roachpb.AdmissionHeader_FROM_SQL)
  = false
  /\ kvadmission.storeAdmissionQ
       (fst (fst (kvadmission.AdmitKVWork (E := Concrete.ext)
                    Concrete.controller Concrete.admitting 1
                    (Concrete.read_request roachpb.AdmissionHeader_FROM_SQL))))
     = None.
Proof.
  split; [reflexivity|].
  apply (no_store_token_without_store_admission (E := Concrete.ext)
           Concrete.controller Concrete.admitting 1
           (Concrete.read_request roachpb.AdmissionHeader_FROM_SQL)
           Concrete.admitting None).
  right. right. left. reflexivity.
Defined.

(* ================================================================= *)
(** ** The tenant weight loop *)

Section WeightLoop.
Import kvadmission.
Context {E : admission.External}.

Lemma providerCalls_flat_map {A : Type} (f : A -> list LoopCall) (l : list A) :
  (forall a, filter LoopTrace.isProviderCall (f a) = []) ->
  filter LoopTrace.isProviderCall (flat_map f l) = [].
Proof.
  intros Hf. induction l as [|a l IH]; cbn; [reflexivity|].
  rewrite filter_app, Hf, IH. reflexivity.
Qed.

(** A tick that is not skipped asks the provider once. *)
Lemma tick_polls_once (n : controllerImpl) (d : bool)
  (sv : admission.Settings) (provided : TenantWeights) :
  d && LoopTrace.bothDisabled sv = false ->
  tick n d sv provided
  = (LoopTrace.bothDisabled sv, snd (tick n d sv provided))
  /\ LoopTrace.providerCalls (snd (tick n d sv provided)) = 1%nat.
Proof.
  unfold LoopTrace.bothDisabled, tick, LoopTrace.providerCalls.
  rewrite <- andb_assoc. intros ->. cbn. split; [reflexivity|].
  rewrite providerCalls_flat_map; [reflexivity|].
  intros a. destruct (storeGrantCoords n _); reflexivity.
Qed.

(** A tick with both settings off, after a tick that ended with
    [allWeightsDisabled] set, is skipped. *)
Lemma tick_skipped (n : controllerImpl) (sv : admission.Settings)
  (provided : TenantWeights) :
  LoopTrace.bothDisabled sv = true ->
  tick n true sv provided = (true, []).
Proof.
  unfold LoopTrace.bothDisabled, tick. cbn. intros ->. reflexivity.
Qed.

(** Whatever came before, a tick with both settings off leaves
    [allWeightsDisabled] set. *)
Lemma tick_disabled_state (n : controllerImpl) (d : bool)
  (sv : admission.Settings) (provided : TenantWeights) :
  LoopTrace.bothDisabled sv = true ->
  fst (tick n d sv provided) = true.
Proof.
  intros Hd. destruct d.
  - now rewrite tick_skipped.
  - destruct (tick_polls_once n false sv provided eq_refl) as [-> _].
    exact Hd.
Qed.

Lemma weightLoop_quiet (n : controllerImpl) (quiet rest : list Select) :
  forallb LoopTrace.disabledTick quiet = true ->
  weightLoop n true (quiet ++ rest)
  = map (fun _ => []) quiet ++ weightLoop n true rest.
Proof.
  induction quiet as [|s quiet IH]; cbn; [reflexivity|].
  intros H. apply andb_prop in H. destruct H as [Hs Hq].
  destruct s as [sv provided|]; [|discriminate].
  cbn in Hs. rewrite (tick_skipped n sv provided Hs).
  rewrite (IH Hq). reflexivity.
Qed.

(** C6.  Once a tick has completed with both weighting settings off,
    the following ticks make no call at all (so none to the provider)
    for as long as both settings stay off, and the first tick at which a
    setting is on again asks the provider exactly once. *)
Theorem weightLoop_short_circuit (n : controllerImpl) (d0 : bool)
  (sv0 : admission.Settings) (p0 : TenantWeights) (quiet : list Select)
  (sv1 : admission.Settings) (p1 : TenantWeights) (rest : list Select) :
  LoopTrace.bothDisabled sv0 = true ->
  forallb LoopTrace.disabledTick quiet = true ->
  LoopTrace.bothDisabled sv1 = false ->
  weightLoop n d0 (ticker_C sv0 p0 :: quiet ++ ticker_C sv1 p1 :: rest)
  = snd (tick n d0 sv0 p0)
    :: map (fun _ => []) quiet
    ++ snd (tick n true sv1 p1)
    :: weightLoop n false rest
  /\ Forall (fun made => LoopTrace.providerCalls made = 0%nat)
            (map (fun _ : Select => @nil LoopCall) quiet)
  /\ LoopTrace.providerCalls (snd (tick n true sv1 p1)) = 1%nat.
Proof.
  intros H0 Hq H1.
  assert (Hpoll : true && LoopTrace.bothDisabled sv1 = false)
    by (rewrite H1; reflexivity).
  destruct (tick_polls_once n true sv1 p1 Hpoll) as [Ht1 Hc1].
  split; [|split].
  - cbn [weightLoop].
    pose proof (tick_disabled_state n d0 sv0 p0 H0) as Hst.
    destruct (tick n d0 sv0 p0) as [d made] eqn:Ht0. cbn in Hst. subst d.
    cbn [snd]. f_equal.
    rewrite (weightLoop_quiet n quiet _ Hq). f_equal.
    cbn [weightLoop]. rewrite Ht1, H1. reflexivity.
  - apply Forall_forall. intros made Hin.
    apply in_map_iff in Hin. destruct Hin as (s & <- & _). reflexivity.
  - exact Hc1.
Qed.

(** C9.  The loop starts with [allWeightsDisabled = false]: the first
    tick asks the provider once whatever the settings are, also when
    both are off; ticks are skipped only from the second consecutive
    tick with both settings off. *)
Theorem first_tick_always_polls (n : controllerImpl)
  (sv : admission.Settings) (provided : TenantWeights)
  (rest : list Select) :
  SetTenantWeightProvider n (ticker_C sv provided :: rest)
  = snd (tick n false sv provided)
    :: weightLoop n (LoopTrace.bothDisabled sv) rest
  /\ LoopTrace.providerCalls (snd (tick n false sv provided)) = 1%nat
  /\ (forall sv' provided' rest',
      LoopTrace.bothDisabled sv = true ->
      LoopTrace.bothDisabled sv' = true ->
      SetTenantWeightProvider n
        (ticker_C sv provided :: ticker_C sv' provided' :: rest')
      = snd (tick n false sv provided) :: [] :: weightLoop n true rest').
Proof.
  destruct (tick_polls_once n false sv provided eq_refl) as [Ht Hc].
  assert (Hfirst : forall more,
             SetTenantWeightProvider n (ticker_C sv provided :: more)
             = snd (tick n false sv provided)
               :: weightLoop n (LoopTrace.bothDisabled sv) more).
  { intros more. unfold SetTenantWeightProvider. cbn [weightLoop].
    rewrite Ht. reflexivity. }
  split; [apply Hfirst|]. split; [exact Hc|].
  intros sv' provided' rest' Hd Hd'.
  rewrite Hfirst, Hd. cbn [weightLoop].
  rewrite (tick_skipped n sv' provided' Hd'). reflexivity.
Qed.

End WeightLoop.

(** Both settings off at three ticks in a row, then one on again. *)
Lemma weightLoop_short_circuit_witness :
  map (LoopTrace.providerCalls (E := Concrete.ext))
    (kvadmission.SetTenantWeightProvider (E := Concrete.ext)
       Concrete.controller
       [kvadmission.ticker_C Concrete.sv_off Concrete.weights;
        kvadmission.ticker_C Concrete.sv_off Concrete.weights;
        kvadmission.ticker_C Concrete.sv_off Concrete.weights;
        kvadmission.ticker_C Concrete.sv Concrete.weights])
  = [1%nat; 0%nat; 0%nat; 1%nat].
Proof.
  unfold kvadmission.SetTenantWeightProvider.
  destruct (weightLoop_short_circuit (E := Concrete.ext)
              Concrete.controller false
              Concrete.sv_off Concrete.weights
              [kvadmission.ticker_C Concrete.sv_off Concrete.weights;
               kvadmission.ticker_C Concrete.sv_off Concrete.weights]
              Concrete.sv Concrete.weights []
              eq_refl eq_refl eq_refl) as (Hrun & _ & _).
  cbn [app] in Hrun. rewrite Hrun. reflexivity.
Defined.

(* ================================================================= *)
(** ** Pacer *)

Section PacerFacts.
Import kvadmission.
Context {E : admission.External}.

(** After Close no handle is outstanding. *)
Lemma Close_idle (p : Pacer) :
  exists p', fst (Close (Some p)) = Some p' /\ cur p' = None.
Proof.
  unfold Close. destruct (cur p) eqn:Hc; cbn; eauto.
Qed.

(** C8.  Close returns nothing that could be an error and is defined on
    every Pacer.  On a nil Pacer it makes no call; on a Pacer without an
    outstanding handle (as AdmitRangefeedRequest returns it, before any
    Pace) it makes no call and changes nothing; a second Close makes no
    call and changes nothing, so that two Close calls release at most
    one handle in total, the outstanding one if there was one.  Pace on
    a nil Pacer makes no call and returns no error. *)
Theorem Pacer_Close_idempotent (w : admission.World) (p : option Pacer)
  (n : controllerImpl) (tenantID : roachpb.TenantID)
  (request : roachpb.RangeFeedRequest) :
  Close None = (None, [])
  /\ Pace w None = (None, None, [])
  /\ Close (AdmitRangefeedRequest n tenantID request)
     = (AdmitRangefeedRequest n tenantID request, [])
  /\ (forall p0, p = Some p0 -> cur p0 = None -> Close p = (p, []))
  /\ Close (fst (Close p)) = (fst (Close p), [])
  /\ (length (snd (Close p) ++ snd (Close (fst (Close p)))) <= 1)%nat
  /\ Tokens.released (snd (Close p) ++ snd (Close (fst (Close p))))
     = match p with
       | Some p0 =>
           match cur p0 with
           | Some h => [Tokens.ElasticToken h]
           | None => []
           end
       | None => []
       end.
Proof.
  split; [reflexivity|].
  split; [reflexivity|].
  split; [reflexivity|].
  split.
  { intros p0 -> Hc. unfold Close. rewrite Hc. reflexivity. }
  destruct p as [p0|]; [|cbn; repeat split; auto].
  unfold Close. destruct (cur p0) eqn:Hc; cbn; rewrite ?Hc; cbn;
    repeat split; auto.
Qed.

End PacerFacts.

(* ================================================================= *)
(** ** A Pacer over its life *)

Section PacerRuns.
Import kvadmission.
Context {E : admission.External}.

Lemma acquired_app (a b : list admission.Call) :
  Tokens.acquired (a ++ b) = Tokens.acquired a ++ Tokens.acquired b.
Proof. apply flat_map_app. Qed.

Lemma released_app (a b : list admission.Call) :
  Tokens.released (a ++ b) = Tokens.released a ++ Tokens.released b.
Proof. apply flat_map_app. Qed.

(** One Pace: what was held and what was acquired is what was released
    and what is held afterwards. *)
Lemma Pace_balance (w : admission.World) (p : option Pacer) :
  Observations.outstanding p ++ Tokens.acquired (snd (Pace w p))
  = Tokens.released (snd (Pace w p))
    ++ Observations.outstanding (snd (fst (Pace w p))).
Proof.
  destruct p as [[u i c]|]; [|reflexivity].
  unfold Pace; cbn [cur unit wi].
  destruct (admission.OverLimit_result w c) eqn:Hover; cbn [cur unit wi].
  - destruct (admission.ElasticCPUWorkQueue_Admit_result w u i)
      as [[h|]|e]; destruct c; reflexivity.
  - destruct c as [h0|]; [reflexivity|].
    destruct (admission.ElasticCPUWorkQueue_Admit_result w u i)
      as [[h|]|e]; reflexivity.
Qed.

Lemma Close_balance (p : option Pacer) :
  Observations.outstanding p ++ Tokens.acquired (snd (Close p))
  = Tokens.released (snd (Close p))
    ++ Observations.outstanding (fst (Close p)).
Proof.
  destruct p as [[u i [h|]]|]; reflexivity.
Qed.

Lemma runPacer_balance (ops : list Observations.PacerOp) :
  forall p : option Pacer,
  Observations.outstanding p
  ++ Tokens.acquired (snd (Observations.runPacer p ops))
  = Tokens.released (snd (Observations.runPacer p ops))
    ++ Observations.outstanding (fst (Observations.runPacer p ops)).
Proof.
  induction ops as [|op ops IH]; intros p; cbn [Observations.runPacer].
  - cbn. now rewrite app_nil_r.
  - destruct op as [w|].
    + pose proof (Pace_balance w p) as Hstep.
      destruct (Pace w p) as [[e p'] made]. cbn [fst snd] in Hstep.
      specialize (IH p').
      destruct (Observations.runPacer p' ops) as [p'' more].
      cbn [fst snd] in *.
      rewrite acquired_app, released_app, app_assoc, Hstep.
      rewrite <- !app_assoc. f_equal. exact IH.
    + pose proof (Close_balance p) as Hstep.
      destruct (Close p) as [p' made]. cbn [fst snd] in Hstep.
      specialize (IH p').
      destruct (Observations.runPacer p' ops) as [p'' more].
      cbn [fst snd] in *.
      rewrite acquired_app, released_app, app_assoc, Hstep.
      rewrite <- !app_assoc. f_equal. exact IH.
Qed.

Lemma runPacer_app (ops ops' : list Observations.PacerOp) :
  forall p : option Pacer,
  Observations.runPacer p (ops ++ ops')
  = (fst (Observations.runPacer
            (fst (Observations.runPacer p ops)) ops'),
     snd (Observations.runPacer p ops)
     ++ snd (Observations.runPacer
               (fst (Observations.runPacer p ops)) ops')).
Proof.
  induction ops as [|op ops IH]; intros p; cbn [app Observations.runPacer].
  - cbn. now destruct (Observations.runPacer p ops').
  - destruct op as [w|].
    + destruct (Pace w p) as [[e p'] made]. rewrite (IH p').
      destruct (Observations.runPacer p' ops) as [p'' more]. cbn.
      now rewrite app_assoc.
    + destruct (Close p) as [p' made]. rewrite (IH p').
      destruct (Observations.runPacer p' ops) as [p'' more]. cbn.
      now rewrite app_assoc.
Qed.

(** X1.  Over any sequence of Pace and Close calls on a Pacer, with the
    queue answering as it likes, no elastic CPU handle is lost or
    released twice: the handle held at the start followed by the handles
    acquired, in order, are the handles released followed by the handle
    held at the end.  When the last call is Close nothing is held at the
    end, so every handle acquired has been released. *)
Theorem Pacer_never_leaks (p : option Pacer)
  (ops : list Observations.PacerOp) :
  Observations.outstanding p
  ++ Tokens.acquired (snd (Observations.runPacer p ops))
  = Tokens.released (snd (Observations.runPacer p ops))
    ++ Observations.outstanding (fst (Observations.runPacer p ops))
  /\ Observations.outstanding
       (fst (Observations.runPacer p (ops ++ [Observations.op_Close]))) = []
  /\ Tokens.released
       (snd (Observations.runPacer p (ops ++ [Observations.op_Close])))
     = Observations.outstanding p
       ++ Tokens.acquired
            (snd (Observations.runPacer p (ops ++ [Observations.op_Close]))).
Proof.
  split; [apply runPacer_balance|].
  assert (Hidle : Observations.outstanding
                    (fst (Observations.runPacer p
                            (ops ++ [Observations.op_Close]))) = []).
  { rewrite runPacer_app. cbn [fst Observations.runPacer].
    destruct (fst (Observations.runPacer p ops)) as [[u i [h|]]|];
      reflexivity. }
  split; [exact Hidle|].
  pose proof (runPacer_balance (ops ++ [Observations.op_Close]) p) as Hb.
  rewrite Hidle, app_nil_r in Hb. symmetry. exact Hb.
Qed.

(** Pace and Close change neither [unit] nor [wi]. *)
Lemma Pace_keeps_settings (w : admission.World) (p0 : Pacer) :
  exists p1, snd (fst (Pace w (Some p0))) = Some p1
             /\ unit p1 = unit p0 /\ wi p1 = wi p0
             /\ Forall (Observations.admitsWith (unit p0) (wi p0))
                       (snd (Pace w (Some p0))).
Proof.
  destruct p0 as [u i c]. unfold Pace; cbn [cur unit wi].
  destruct (admission.OverLimit_result w c); cbn [cur unit wi].
  - destruct (admission.ElasticCPUWorkQueue_Admit_result w u i)
      as [h|e]; cbn; eexists; repeat split; repeat constructor.
  - destruct c as [h0|].
    + cbn. eexists; repeat split; repeat constructor.
    + destruct (admission.ElasticCPUWorkQueue_Admit_result w u i)
        as [h|e]; cbn; eexists; repeat split; repeat constructor.
Qed.

Lemma Close_keeps_settings (p0 : Pacer) :
  exists p1, fst (Close (Some p0)) = Some p1
             /\ unit p1 = unit p0 /\ wi p1 = wi p0
             /\ Forall (Observations.admitsWith (unit p0) (wi p0))
                       (snd (Close (Some p0))).
Proof.
  destruct p0 as [u i [h|]]; cbn; eexists; repeat split; repeat constructor.
Qed.

Lemma runPacer_admits (ops : list Observations.PacerOp) :
  forall p0 : Pacer,
  Forall (Observations.admitsWith (unit p0) (wi p0))
         (snd (Observations.runPacer (Some p0) ops)).
Proof.
  induction ops as [|op ops IH]; intros p0; cbn [Observations.runPacer].
  - constructor.
  - destruct op as [w|].
    + destruct (Pace_keeps_settings w p0) as (p1 & Hp & Hu & Hw & Hmade).
      destruct (Pace w (Some p0)) as [[e p'] made]. cbn [fst snd] in *.
      subst p'. specialize (IH p1). rewrite Hu, Hw in IH.
      destruct (Observations.runPacer (Some p1) ops) as [p'' more].
      cbn [snd] in *. apply Forall_app. split; assumption.
    + destruct (Close_keeps_settings p0) as (p1 & Hp & Hu & Hw & Hmade).
      destruct (Close (Some p0)) as [p' made]. cbn [fst snd] in *.
      subst p'. specialize (IH p1). rewrite Hu, Hw in IH.
      destruct (Observations.runPacer (Some p1) ops) as [p'' more].
      cbn [snd] in *. apply Forall_app. split; assumption.
Qed.

(** X2.  Every Admit the Pacer of a rangefeed request makes, over any
    sequence of Pace and Close calls, asks for the rangefeed scan unit
    duration with a work info that is not bypassed, whoever the tenant
    is, and that carries the header's create time as it is (a zero
    create time is not replaced by the clock). *)
Theorem rangefeed_Pacer_admits (n : controllerImpl)
  (tenantID : roachpb.TenantID) (request : roachpb.RangeFeedRequest)
  (ops : list Observations.PacerOp) :
  Forall
    (Observations.admitsWith
       (admission.elasticCPUDurationPerRangefeedScanUnit (settings n))
       {| admission.TenantID := tenantID;
          admission.Priority :=
            admission.WorkPriority
              (roachpb.Priority (roachpb.rf_AdmissionHeader request));
          admission.CreateTime :=
            roachpb.CreateTime (roachpb.rf_AdmissionHeader request);
          admission.BypassAdmission := false |})
    (snd (Observations.runPacer
            (AdmitRangefeedRequest n tenantID request) ops)).
Proof.
  unfold AdmitRangefeedRequest.
  match goal with
  | |- Forall _ (snd (Observations.runPacer (Some ?p0) ops)) =>
      exact (runPacer_admits ops p0)
  end.
Qed.

(** X3.  When Pace returns an error, the error is the one the queue's
    Admit returned, and the Pacer holds no handle afterwards: a handle
    it held before was over its limit and has been released.  (So a
    caller that stops at the error without calling Close leaks
    nothing.) *)
Theorem Pace_error_leaves_idle (w : admission.World) (p : option Pacer)
  (e : admission.error) (p' : option Pacer) (made : list admission.Call) :
  Pace w p = (Some e, p', made) ->
  Observations.outstanding p' = []
  /\ Tokens.released made = Observations.outstanding p
  /\ Tokens.acquired made = []
  /\ exists p0,
       p = Some p0
       /\ last made (admission.log_Errorf e)
          = admission.ElasticCPUWorkQueue_Admit (unit p0) (wi p0)
              (admission.Err e).
Proof.
  destruct p as [[u i c]|]; [|discriminate].
  unfold Pace; cbn [cur unit wi].
  destruct (admission.OverLimit_result w c) eqn:Hover; cbn [cur unit wi].
  - destruct (admission.ElasticCPUWorkQueue_Admit_result w u i)
      as [h|e0]; intros H; inversion H; subst; clear H.
    destruct c; cbn; repeat split; eauto.
  - destruct c as [h0|]; [discriminate|].
    destruct (admission.ElasticCPUWorkQueue_Admit_result w u i)
      as [h|e0]; intros H; inversion H; subst; clear H.
    cbn; repeat split; eauto.
Qed.

(** X4.  While the Pacer holds a handle that is not over its limit,
    Pace makes no call on the queue and leaves the Pacer as it is; and
    no Pace makes more than one Admit call or more than one
    AdmittedWorkDone call. *)
Theorem Pace_within_limit_is_free (w : admission.World) (p0 : Pacer)
  (h : admission.ElasticCPUWorkHandle) :
  cur p0 = Some h ->
  admission.OverLimit_result w (Some h) = false ->
  Pace w (Some p0) = (None, Some p0, [])
  /\ (forall (w' : admission.World) (p : option Pacer),
      (length (filter Tokens.isAdmit (snd (Pace w' p))) <= 1)%nat
      /\ (length (filter Tokens.isCompletion (snd (Pace w' p))) <= 1)%nat).
Proof.
  intros Hc Hover. split.
  - unfold Pace. rewrite Hc, Hover. cbn. rewrite Hc. reflexivity.
  - intros w' [[u i c]|]; [|cbn; lia].
    unfold Pace; cbn [cur unit wi].
    destruct (admission.OverLimit_result w' c); cbn [cur unit wi].
    + destruct (admission.ElasticCPUWorkQueue_Admit_result w' u i);
        cbn; lia.
    + destruct c; [cbn; lia|].
      destruct (admission.ElasticCPUWorkQueue_Admit_result w' u i);
        cbn; lia.
Qed.

End PacerRuns.

(** An idle Pacer whose Admit is refused with error 3. *)
Lemma Pace_error_leaves_idle_witness :
  kvadmission.Pace (E := Concrete.ext) Concrete.elastic_failing
    (Some Examples.idle)
  = (Some (Concrete.err 3), Some Examples.idle,
     [admission.ElasticCPUWorkQueue_Admit 100000000 Examples.info
        (admission.Err (Concrete.err 3))])
  /\ Tokens.acquired
       [admission.ElasticCPUWorkQueue_Admit (E := Concrete.ext)
          100000000 Examples.info (admission.Err (Concrete.err 3))]
     = [].
Proof.
  split; [reflexivity|].
  apply (Pace_error_leaves_idle (E := Concrete.ext)
           Concrete.elastic_failing (Some Examples.idle)
           (Concrete.err 3) (Some Examples.idle) _ eq_refl).
Defined.

(** A Pacer that holds handle 7, which is not over its limit. *)
Lemma Pace_within_limit_is_free_witness :
  kvadmission.cur Examples.holding = Some (Concrete.elasticHandle 7)
  /\ kvadmission.Pace (E := Concrete.ext) Concrete.admitting
       (Some Examples.holding)
     = (None, Some Examples.holding, []).
Proof.
  split; [reflexivity|].
  apply (Pace_within_limit_is_free (E := Concrete.ext)
           Concrete.admitting Examples.holding
           (Concrete.elasticHandle 7) eq_refl eq_refl).
Defined.

(* ================================================================= *)
(** ** The calls of AdmitKVWork and AdmittedKVWorkDone *)

(** Reads the equation of a short list with [pre ++ c :: post]. *)
Ltac split_trace :=
  repeat match goal with
         | H : [] = ?pre ++ _ :: _ |- _ =>
             destruct pre; discriminate H
         | H : _ :: _ = ?pre ++ _ :: _ |- _ =>
             destruct pre; cbn [app] in H;
             injection H as ? H; subst
         end.

Section AdmitCalls.
Import kvadmission.
Context {E : admission.External}.

(** X5.  AdmitKVWork asks at most two queues and makes at most three
    calls; a store queue is asked before any other queue; and it never
    calls AdmittedWorkDone on the elastic CPU queue (the rollback it
    defers after an elastic admission cannot run, since no error is
    returned after that point). *)
Theorem AdmitKVWork_calls (n : controllerImpl) (w : admission.World)
  (tenantID : roachpb.TenantID) (ba : roachpb.BatchRequest) :
  let tr := snd (AdmitKVWork n w tenantID ba) in
  (length (filter Tokens.isAdmit tr) <= 2)%nat
  /\ (length tr <= 3)%nat
  /\ filter Observations.isStoreAdmit (tl tr) = []
  /\ filter Observations.isElasticCompletion tr = []
  /\ filter Observations.isLog tr = [].
Proof.
  cbv zeta. admit_cases; cbn; repeat split; lia.
Qed.

(** X6.  When the store queue admits a write and its handle says that
    admission is not enabled, AdmitKVWork asks no other queue, whatever
    the request is: it returns without error a Handle that holds
    nothing, and the store Admit is its only call. *)
Theorem store_admission_disabled_ends_admission (n : controllerImpl)
  (w : admission.World) (tenantID : roachpb.TenantID)
  (ba : roachpb.BatchRequest) (q : admission.StoreWorkQueue)
  (h : admission.StoreWorkHandle) :
  kvAdmissionQ n = true ->
  roachpb.IsWrite ba = true ->
  roachpb.IsSingleHeartbeatTxnRequest ba = false ->
  storeGrantCoords n (MachineInt.int32 (roachpb.Replica_StoreID ba))
  = Some q ->
  admission.StoreWorkQueue_Admit_result w q
    {| admission.swwi_WorkInfo := admissionInfo n w tenantID ba |}
  = admission.Ok h ->
  admission.AdmissionEnabled h = false ->
  AdmitKVWork n w tenantID ba
  = (({| tenantID := tenantID;
         storeAdmissionQ := None;
         storeWorkHandle := admission.StoreWorkHandle_zero;
         ElasticCPUWorkHandle := None;
         callAdmittedWorkDoneOnKVAdmissionQ := false |}, None),
     [admission.StoreWorkQueue_Admit q
        {| admission.swwi_WorkInfo := admissionInfo n w tenantID ba |}
        (admission.Ok h)]).
Proof.
  intros Hq Hw Hhb Hs Hr Hen.
  unfold AdmitKVWork, runFunc, admitStore.
  rewrite Hq, Hw, Hhb, Hs, Hr, Hen. reflexivity.
Qed.

(** X7.  AdmitKVWork stops at the first Admit that fails: no queue is
    asked after it, and the error AdmitKVWork returns is the error of
    that Admit. *)
Theorem AdmitKVWork_stops_at_first_failure (n : controllerImpl)
  (w : admission.World) (tenantID : roachpb.TenantID)
  (ba : roachpb.BatchRequest) (pre post : list admission.Call)
  (c : admission.Call) (e : admission.error) :
  snd (AdmitKVWork n w tenantID ba) = pre ++ c :: post ->
  Observations.failure c = Some e ->
  snd (fst (AdmitKVWork n w tenantID ba)) = Some e
  /\ filter Tokens.isAdmit post = []
  /\ filter Observations.isFailedAdmit pre = [].
Proof.
  admit_cases; cbn [snd fst]; intros H Hf; split_trace;
    cbn in Hf; try discriminate Hf;
    injection Hf as <-; repeat split.
Qed.

(** X8.  AdmittedKVWorkDone reports to the store queue the bytes it is
    given, or zero bytes when it is given none.  It logs at most once,
    and only when that report returns an error: fatally in a test
    build, otherwise through the rate limiter. *)
Theorem AdmittedKVWorkDone_store_report (n : controllerImpl)
  (w : admission.World) (ah : Handle) (writeBytes : option StoreWriteBytes) :
  let done := AdmittedKVWorkDone n w ah writeBytes in
  let doneInfo :=
    match writeBytes with
    | Some wb => wb
    | None => admission.StoreWorkDoneInfo_zero
    end in
  (forall q, storeAdmissionQ ah = Some q ->
   filter Tokens.isStoreCompletion done
   = [admission.StoreWorkQueue_AdmittedWorkDone q (storeWorkHandle ah)
        doneInfo
        (admission.StoreWorkQueue_AdmittedWorkDone_result
           w q (storeWorkHandle ah) doneInfo)]
   /\ filter Observations.isLog done
      = match admission.StoreWorkQueue_AdmittedWorkDone_result
                w q (storeWorkHandle ah) doneInfo with
        | None => []
        | Some e =>
            if admission.CrdbTestBuild then [admission.log_Fatalf e]
            else if admission.every_ShouldLog w
                 then [admission.log_Errorf e] else []
        end)
  /\ (storeAdmissionQ ah = None -> filter Observations.isLog done = [])
  /\ (length (filter Observations.isLog done) <= 1)%nat.
Proof.
  cbv zeta. unfold AdmittedKVWorkDone.
  destruct ah as [t sq sh eh kv]; cbn [storeAdmissionQ storeWorkHandle
    ElasticCPUWorkHandle callAdmittedWorkDoneOnKVAdmissionQ tenantID].
  split; [|split].
  - intros q ->. destruct kv; cbn;
      destruct (admission.StoreWorkQueue_AdmittedWorkDone_result _ _ _ _);
      cbn;
      repeat match goal with
             | |- context [if ?b then _ else _] => destruct b; cbn
             end;
      split; reflexivity.
  - intros ->. destruct kv; reflexivity.
  - destruct sq as [q|]; destruct kv; cbn; try lia;
      destruct (admission.StoreWorkQueue_AdmittedWorkDone_result _ _ _ _);
      cbn; try lia;
      repeat match goal with
             | |- context [if ?b then _ else _] => destruct b; cbn
             end;
      lia.
Qed.

End AdmitCalls.

(** A write whose store queue admits without charging. *)
Lemma store_admission_disabled_ends_admission_witness :
  Tokens.held
    (fst (fst (kvadmission.AdmitKVWork (E := Concrete.ext)
                 Concrete.controller Examples.exempting 1
                 (Concrete.write_request roachpb.AdmissionHeader_FROM_SQL))))
  = []
  /\ length
       (snd (kvadmission.AdmitKVWork (E := Concrete.ext)
               Concrete.controller Examples.exempting 1
               (Concrete.write_request roachpb.AdmissionHeader_FROM_SQL)))
     = 1%nat.
Proof.
  rewrite (store_admission_disabled_ends_admission (E := Concrete.ext)
             Concrete.controller Examples.exempting 1
             (Concrete.write_request roachpb.AdmissionHeader_FROM_SQL)
             (Concrete.queue 1) (Concrete.storeHandle false)
             eq_refl eq_refl eq_refl eq_refl eq_refl eq_refl).
  split; reflexivity.
Defined.

(** The store queue refuses a write with error 5. *)
Lemma AdmitKVWork_stops_at_first_failure_witness :
  snd (fst (kvadmission.AdmitKVWork (E := Concrete.ext)
              Concrete.controller Examples.store_failing 1
              (Concrete.write_request roachpb.AdmissionHeader_FROM_SQL)))
  = Some (Concrete.err 5).
Proof.
  apply (AdmitKVWork_stops_at_first_failure (E := Concrete.ext)
           Concrete.controller Examples.store_failing 1
           (Concrete.write_request roachpb.AdmissionHeader_FROM_SQL)
           []
           []
           (admission.StoreWorkQueue_Admit (Concrete.queue 1)
              {| admission.swwi_WorkInfo :=
                   kvadmission.admissionInfo (E := Concrete.ext)
                     Concrete.controller Examples.store_failing 1
                     (Concrete.write_request
                        roachpb.AdmissionHeader_FROM_SQL) |}
              (admission.Err (Concrete.err 5)))
           (Concrete.err 5) eq_refl eq_refl).
Defined.

(* ================================================================= *)
(** ** Reports that bypass admission *)

Section Reports.
Import MachineInt kvadmission.
Context {E : admission.External}.
Variable Stats : Type.

Lemma reportedWriteBytes_app (a b : list (StoreCall Stats)) :
  Observations.reportedWriteBytes (a ++ b)
  = Observations.reportedWriteBytes a + Observations.reportedWriteBytes b.
Proof.
  induction a as [|c a IH]; [reflexivity|].
  cbn [app].
  change (Observations.reportedWriteBytes (c :: a ++ b))
    with (match c with
          | StoreWorkQueue_BypassedWorkDone _ _ doneInfo =>
              admission.WriteBytes doneInfo
              + Observations.reportedWriteBytes (a ++ b)
          | _ => Observations.reportedWriteBytes (a ++ b)
          end).
  change (Observations.reportedWriteBytes (c :: a))
    with (match c with
          | StoreWorkQueue_BypassedWorkDone _ _ doneInfo =>
              admission.WriteBytes doneInfo
              + Observations.reportedWriteBytes a
          | _ => Observations.reportedWriteBytes a
          end).
  rewrite IH. destruct c; lia.
Qed.

Lemma reportedIngestedBytes_app (a b : list (StoreCall Stats)) :
  Observations.reportedIngestedBytes (a ++ b)
  = Observations.reportedIngestedBytes a
    + Observations.reportedIngestedBytes b.
Proof.
  induction a as [|c a IH]; [reflexivity|].
  cbn [app].
  change (Observations.reportedIngestedBytes (c :: a ++ b))
    with (match c with
          | StoreWorkQueue_BypassedWorkDone _ _ doneInfo =>
              admission.IngestedBytes doneInfo
              + Observations.reportedIngestedBytes (a ++ b)
          | _ => Observations.reportedIngestedBytes (a ++ b)
          end).
  change (Observations.reportedIngestedBytes (c :: a))
    with (match c with
          | StoreWorkQueue_BypassedWorkDone _ _ doneInfo =>
              admission.IngestedBytes doneInfo
              + Observations.reportedIngestedBytes a
          | _ => Observations.reportedIngestedBytes a
          end).
  rewrite IH. destruct c; lia.
Qed.

(** Where the store has a queue, the bytes that reach it are the bytes
    of the report: a report that is dropped has none. *)
Lemma reported_bytes (n : controllerImpl) (storeID : Z)
  (f : FollowerStoreWriteBytes) (q : admission.StoreWorkQueue) :
  storeGrantCoords n (int32 storeID) = Some q ->
  Observations.reportedWriteBytes
    (controllerImpl_FollowerStoreWriteBytes (Stats := Stats) n storeID f)
  = admission.WriteBytes (StoreWorkDoneInfo f)
  /\ Observations.reportedIngestedBytes
       (controllerImpl_FollowerStoreWriteBytes (Stats := Stats) n storeID f)
     = admission.IngestedBytes (StoreWorkDoneInfo f).
Proof.
  intros Hq. unfold controllerImpl_FollowerStoreWriteBytes. rewrite Hq.
  destruct (admission.WriteBytes (StoreWorkDoneInfo f) =? 0) eqn:Hw;
    destruct (admission.IngestedBytes (StoreWorkDoneInfo f) =? 0) eqn:Hi;
    cbn; rewrite ?Z.add_0_r; split; try reflexivity;
    try (apply Z.eqb_eq in Hw; congruence);
    try (apply Z.eqb_eq in Hi; congruence).
Qed.

(** X9.  Merging two follower reports and then reporting the result
    accounts the same write bytes and the same ingested bytes at the
    store queue as reporting the two one after the other, as long as
    the sums fit in an int64. *)
Theorem FollowerStoreWriteBytes_of_Merge (n : controllerImpl) (storeID : Z)
  (a b : FollowerStoreWriteBytes) :
  in_int64 (admission.WriteBytes (StoreWorkDoneInfo a)
            + admission.WriteBytes (StoreWorkDoneInfo b)) ->
  in_int64 (admission.IngestedBytes (StoreWorkDoneInfo a)
            + admission.IngestedBytes (StoreWorkDoneInfo b)) ->
  Observations.reportedWriteBytes
    (controllerImpl_FollowerStoreWriteBytes (Stats := Stats)
       n storeID (Merge a b))
  = Observations.reportedWriteBytes
      (controllerImpl_FollowerStoreWriteBytes (Stats := Stats) n storeID a
       ++ controllerImpl_FollowerStoreWriteBytes n storeID b)
  /\ Observations.reportedIngestedBytes
       (controllerImpl_FollowerStoreWriteBytes (Stats := Stats)
          n storeID (Merge a b))
     = Observations.reportedIngestedBytes
         (controllerImpl_FollowerStoreWriteBytes (Stats := Stats) n storeID a
          ++ controllerImpl_FollowerStoreWriteBytes n storeID b).
Proof.
  intros Hw Hi.
  rewrite reportedWriteBytes_app, reportedIngestedBytes_app.
  destruct (storeGrantCoords n (int32 storeID)) as [q|] eqn:Hq.
  - destruct (reported_bytes n storeID (Merge a b) q Hq) as [-> ->].
    destruct (reported_bytes n storeID a q Hq) as [-> ->].
    destruct (reported_bytes n storeID b q Hq) as [-> ->].
    cbn. rewrite !add64_exact by assumption. split; reflexivity.
  - unfold controllerImpl_FollowerStoreWriteBytes. rewrite Hq.
    repeat match goal with
           | |- context [if ?c then _ else _] => destruct c
           end; split; reflexivity.
Qed.

(** X10.  SnapshotIngested and FollowerStoreWriteBytes make no call when
    the store has no queue.  FollowerStoreWriteBytes also makes none
    when the write bytes and the ingested bytes are both zero, whatever
    the number of entries, which then never reaches the queue.
    Otherwise each makes one call, on the queue of that store, with its
    argument unchanged. *)
Theorem bypassing_reports (n : controllerImpl) (storeID : Z)
  (f : FollowerStoreWriteBytes) (ingestStats : Stats) :
  (controllerImpl_FollowerStoreWriteBytes (Stats := Stats) n storeID f = []
   <-> (admission.WriteBytes (StoreWorkDoneInfo f) = 0
        /\ admission.IngestedBytes (StoreWorkDoneInfo f) = 0)
       \/ storeGrantCoords n (int32 storeID) = None)
  /\ (forall c,
      In c (controllerImpl_FollowerStoreWriteBytes (Stats := Stats)
              n storeID f) ->
      exists q, storeGrantCoords n (int32 storeID) = Some q
                /\ controllerImpl_FollowerStoreWriteBytes (Stats := Stats)
                     n storeID f
                   = [StoreWorkQueue_BypassedWorkDone q (NumEntries f)
                        (StoreWorkDoneInfo f)])
  /\ SnapshotIngested n storeID ingestStats
     = match storeGrantCoords n (int32 storeID) with
       | Some q => [StoreWorkQueue_StatsToIgnore q ingestStats]
       | None => []
       end.
Proof.
  unfold controllerImpl_FollowerStoreWriteBytes, SnapshotIngested.
  destruct (storeGrantCoords n (int32 storeID)) as [q|];
    destruct (Z.eqb_spec (admission.WriteBytes (StoreWorkDoneInfo f)) 0)
      as [Hw|Hw];
    destruct (Z.eqb_spec (admission.IngestedBytes (StoreWorkDoneInfo f)) 0)
      as [Hi|Hi];
    cbn [andb];
    (split; [split; [intros H; try discriminate H; auto
                    |intros [[H1 H2]|H]; try reflexivity;
                     try contradiction; try discriminate H]
            |split; [intros c Hin; try (destruct Hin as [<-|[]]);
                     try destruct Hin; eauto
                    |reflexivity]]).
Qed.

End Reports.

(** Ten bytes and none, merged before they are reported. *)
Lemma FollowerStoreWriteBytes_of_Merge_witness :
  Observations.reportedWriteBytes
    (kvadmission.controllerImpl_FollowerStoreWriteBytes
       (E := Concrete.ext) (Stats := nat) Concrete.controller 1
       (kvadmission.Merge Examples.follower_bytes
          Examples.follower_entries_only))
  = 10.
Proof.
  destruct (FollowerStoreWriteBytes_of_Merge (E := Concrete.ext) nat
              Concrete.controller 1
              Examples.follower_bytes Examples.follower_entries_only)
    as [Hw _].
  - unfold MachineInt.in_int64. cbn. lia.
  - unfold MachineInt.in_int64. cbn. lia.
  - rewrite Hw. reflexivity.
Defined.

(* ================================================================= *)
(** ** More on the tenant weight loop *)

Section WeightLoopMore.
Import kvadmission.
Context {E : admission.External}.

Lemma tick_polls_at_most_once (n : controllerImpl) (d : bool)
  (sv : admission.Settings) (provided : TenantWeights) :
  (LoopTrace.providerCalls (snd (tick n d sv provided)) <= 1)%nat.
Proof.
  destruct (d && LoopTrace.bothDisabled sv) eqn:Hskip.
  - apply andb_prop in Hskip. destruct Hskip as [-> Hd].
    rewrite (tick_skipped n sv provided Hd). cbn. lia.
  - destruct (tick_polls_once n d sv provided Hskip) as [_ ->]. lia.
Qed.

(** X11.  The loop returns at the quiescence signal: what is received
    after it has no effect, and the last thing the loop does is to stop
    the ticker.  No signal makes the loop ask the provider more than
    once. *)
Theorem weightLoop_returns_at_quiescence (n : controllerImpl) (d : bool)
  (pre rest signals : list Select) :
  weightLoop n d (pre ++ stopper_ShouldQuiesce :: rest)
  = weightLoop n d (pre ++ [stopper_ShouldQuiesce])
  /\ last (weightLoop n d (pre ++ [stopper_ShouldQuiesce])) []
     = [ticker_Stop]
  /\ Forall (fun made => (LoopTrace.providerCalls made <= 1)%nat)
            (weightLoop n d signals)
  /\ (length (weightLoop n d signals) <= length signals)%nat.
Proof.
  split; [|split; [|split]].
  - revert d. induction pre as [|s pre IH]; intros d; cbn; [reflexivity|].
    destruct s as [sv provided|]; [|reflexivity].
    destruct (tick n d sv provided) as [d' made]. now rewrite IH.
  - revert d. induction pre as [|s pre IH]; intros d; cbn; [reflexivity|].
    destruct s as [sv provided|]; [|reflexivity].
    destruct (tick n d sv provided) as [d' made].
    specialize (IH d').
    destruct (weightLoop n d' (pre ++ [stopper_ShouldQuiesce])) eqn:Hl;
      [|exact IH].
    destruct pre as [|[sv' p'|] pre]; cbn in Hl; try discriminate Hl.
    destruct (tick n d' sv' p'); discriminate Hl.
  - revert d. induction signals as [|s signals IH]; intros d; cbn;
      [constructor|].
    destruct s as [sv provided|].
    + pose proof (tick_polls_at_most_once n d sv provided) as Hp.
      destruct (tick n d sv provided) as [d' made]. constructor; auto.
    + constructor; [cbn; lia|constructor].
  - revert d. induction signals as [|s signals IH]; intros d; cbn; [lia|].
    destruct s as [sv provided|]; [|cbn; lia].
    destruct (tick n d sv provided) as [d' made]. cbn.
    specialize (IH d'). lia.
Qed.


End WeightLoopMore.


(* ================================================================= *)
(** ** The pool of StoreWriteBytes *)

Section Pool.
Import kvadmission.

Lemma length_store_at {A : Type} (l : list A) (i : nat) (a : A) :
  length (store_at l i a) = length l.
Proof.
  revert i. induction l as [|x l IH]; intros [|i]; cbn; auto.
Qed.

Lemma nth_error_store_at_same {A : Type} (l : list A) (i : nat) (a : A) :
  (i < length l)%nat -> nth_error (store_at l i a) i = Some a.
Proof.
  revert i. induction l as [|x l IH]; intros [|i] H; cbn in *;
    try lia; [reflexivity|]. apply IH. lia.
Qed.

Lemma nth_error_store_at_other {A : Type} (l : list A) (i j : nat) (a : A) :
  i <> j -> nth_error (store_at l i a) j = nth_error l j.
Proof.
  revert i j. induction l as [|x l IH]; intros [|i] [|j] H; cbn;
    try reflexivity; try congruence. apply IH. congruence.
Qed.

Lemma Forall_drop_at {A : Type} (P : A -> Prop) (l : list A) (i : nat) :
  Forall P l -> Forall P (drop_at l i).
Proof.
  revert i. induction l as [|x l IH]; intros [|i] H; cbn; auto;
    inversion H; subst; auto.
Qed.

(** What Get hands out is an object that exists, and the pool keeps
    pointing to objects that exist. *)
Lemma pool_Get_valid (pick : option nat) (st : PoolState) :
  Forall (fun a => (a < length (objects st))%nat) (storeWriteBytesPool st) ->
  (fst (pool_Get pick st) < length (objects (snd (pool_Get pick st))))%nat
  /\ Forall (fun a => (a < length (objects (snd (pool_Get pick st))))%nat)
            (storeWriteBytesPool (snd (pool_Get pick st)))
  /\ (forall a, (a < length (objects st))%nat ->
      nth_error (objects (snd (pool_Get pick st))) a
      = nth_error (objects st) a).
Proof.
  intros Hvalid.
  assert (Hfresh :
            (length (objects st)
             < length (objects st ++ [admission.StoreWorkDoneInfo_zero]))%nat
            /\ Forall
                 (fun a =>
                    (a < length
                           (objects st ++ [admission.StoreWorkDoneInfo_zero]))%nat)
                 (storeWriteBytesPool st)
            /\ (forall a, (a < length (objects st))%nat ->
                nth_error (objects st ++ [admission.StoreWorkDoneInfo_zero]) a
                = nth_error (objects st) a)).
  { rewrite length_app. cbn. split; [lia|]. split.
    - eapply Forall_impl; [|exact Hvalid]. cbn. intros; lia.
    - intros a Ha. now apply nth_error_app1. }
  unfold pool_Get. destruct pick as [i|]; [|exact Hfresh].
  destruct (nth_error (storeWriteBytesPool st) i) as [wb|] eqn:Hnth;
    [|exact Hfresh].
  cbn. split; [|split; [|reflexivity]].
  - apply nth_error_In in Hnth.
    rewrite Forall_forall in Hvalid. now apply Hvalid.
  - now apply Forall_drop_at.
Qed.

(** X13.  NewStoreWriteBytes returns a pointer to a zero StoreWriteBytes
    whatever the pool holds: an object that was released with bytes in
    it and is handed out again has been reset.  No other object
    changes.  Release of nil leaves the pool as it is. *)
Theorem NewStoreWriteBytes_is_zero (pick : option nat) (st : PoolState) :
  Forall (fun a => (a < length (objects st))%nat) (storeWriteBytesPool st) ->
  let wb := fst (NewStoreWriteBytes pick st) in
  let st' := snd (NewStoreWriteBytes pick st) in
  nth_error (objects st') wb = Some admission.StoreWorkDoneInfo_zero
  /\ (forall a, a <> wb -> (a < length (objects st))%nat ->
      nth_error (objects st') a = nth_error (objects st) a)
  /\ Forall (fun a => (a < length (objects st'))%nat)
            (storeWriteBytesPool st')
  /\ (forall (a : nat) (v : StoreWriteBytes),
      (a < length (objects st))%nat ->
      fst (NewStoreWriteBytes (Some 0%nat)
             (Release (Some a) (write a v st))) = a
      /\ nth_error
           (objects (snd (NewStoreWriteBytes (Some 0%nat)
                            (Release (Some a) (write a v st))))) a
         = Some admission.StoreWorkDoneInfo_zero)
  /\ Release None st = st.
Proof.
  intros Hvalid. cbv zeta.
  destruct (pool_Get_valid pick st Hvalid) as (Hwb & Hpool & Hsame).
  unfold NewStoreWriteBytes.
  destruct (pool_Get pick st) as [wb st1]. cbn [fst snd] in *.
  cbn [objects storeWriteBytesPool].
  split; [now apply nth_error_store_at_same|].
  split.
  { intros a Hne Ha. rewrite nth_error_store_at_other by congruence.
    now apply Hsame. }
  split.
  { rewrite length_store_at. exact Hpool. }
  split; [|reflexivity].
  intros a v Ha. cbn. split; [reflexivity|].
  apply nth_error_store_at_same.
  rewrite length_store_at. exact Ha.
Qed.

End Pool.

(** The object released with 9 and 4 bytes in it comes back zeroed. *)
Lemma NewStoreWriteBytes_is_zero_witness :
  fst (kvadmission.NewStoreWriteBytes (Some 0%nat) Examples.dirty_pool)
  = 1%nat
  /\ nth_error (kvadmission.objects Examples.dirty_pool) 1
     = Some {| admission.WriteBytes := 9; admission.IngestedBytes := 4 |}
  /\ nth_error
       (kvadmission.objects
          (snd (kvadmission.NewStoreWriteBytes (Some 0%nat)
                  Examples.dirty_pool)))
       (fst (kvadmission.NewStoreWriteBytes (Some 0%nat)
               Examples.dirty_pool))
     = Some admission.StoreWorkDoneInfo_zero.
Proof.
  split; [reflexivity|]. split; [reflexivity|].
  apply (NewStoreWriteBytes_is_zero (Some 0%nat) Examples.dirty_pool).
  repeat constructor.
Defined.

(* ================================================================= *)
(** ** The Pacer carried by a context *)

Section ContextPacer.
Import kvadmission.
Context {E : admission.External}.

(** X14.  PacerFromContext gives back the Pacer that ContextWithPacer
    attached; attaching nil attaches nothing, so the Pacer attached
    before stays visible; values under the keys of other packages are
    neither changed nor taken for a Pacer; and on a context without a
    Pacer the result is nil, on which Pace does nothing. *)
Theorem PacerFromContext_ContextWithPacer (ctx : Context)
  (h : option Pacer) (k : nat) (v : ctxValue) (w : admission.World) :
  PacerFromContext (ContextWithPacer ctx h)
  = match h with
    | Some p => Some p
    | None => PacerFromContext ctx
    end
  /\ context_Value (ContextWithPacer ctx h) (otherKey k)
     = context_Value ctx (otherKey k)
  /\ PacerFromContext (context_WithValue ctx (otherKey k) v)
     = PacerFromContext ctx
  /\ PacerFromContext [] = None
  /\ Pace w (PacerFromContext []) = (None, None, []).
Proof.
  repeat split; destruct h; reflexivity.
Qed.

End ContextPacer.

(* ================================================================= *)
(** ** Validation of the duration settings *)

Section Durations.
Import kvadmission.

(** X15.  Both duration settings accept exactly the durations between
    MinElasticCPUDuration and MaxElasticCPUDuration, bounds included.
    A duration below the minimum is reported as such even if it is also
    above the maximum.  The default, MaxElasticCPUDuration, is accepted
    exactly when the minimum is not above the maximum. *)
Theorem duration_settings_validation (Min Max duration : Z) :
  (validateDurationPerExportRequest Min Max duration = None
   <-> Min <= duration <= Max)
  /\ (validateDurationPerRangefeedScanUnit Min Max duration = None
      <-> Min <= duration <= Max)
  /\ (duration < Min ->
      validateDurationPerExportRequest Min Max duration
      = Some (belowMinimum true Min duration)
      /\ validateDurationPerRangefeedScanUnit Min Max duration
         = Some (belowMinimum false Min duration))
  /\ (Min <= duration -> Max < duration ->
      validateDurationPerExportRequest Min Max duration
      = Some (aboveMaximum true Max duration)
      /\ validateDurationPerRangefeedScanUnit Min Max duration
         = Some (aboveMaximum false Max duration))
  /\ (validateDurationPerExportRequest Min Max Max = None <-> Min <= Max).
Proof.
  unfold validateDurationPerExportRequest,
    validateDurationPerRangefeedScanUnit.
  destruct (Z.ltb_spec duration Min) as [H1|H1];
    destruct (Z.ltb_spec Max duration) as [H2|H2];
    destruct (Z.ltb_spec Max Min) as [H3|H3];
    destruct (Z.ltb_spec Max Max) as [H4|H4];
    repeat split; intros; try discriminate; try lia; auto.
Qed.

End Durations.

(* ================================================================= *)
(** ** splitMsgs *)

Section SplitMsgsFacts.
Import rafttest.
Variable Payload : Type.
Variable IsLocalMsgTarget : Z -> bool.

Local Abbreviation Msg := (Message Payload).
Local Abbreviation sel := (selected IsLocalMsgTarget).
Local Abbreviation isLocal := IsLocalMsgTarget.

Lemma splitMsgs_loop_filter (msgs : list Msg) (to typ : Z) (drop : bool) :
  forall toMsgs rmdr,
  splitMsgs_loop IsLocalMsgTarget msgs to typ drop toMsgs rmdr
  = (toMsgs ++ filter (sel to typ drop) msgs,
     rmdr ++ filter (fun m => negb (sel to typ drop m)) msgs).
Proof.
  induction msgs as [|m msgs IH]; intros toMsgs rmdr; cbn.
  - now rewrite !app_nil_r.
  - destruct (sel to typ drop m); cbn; rewrite IH, <- app_assoc;
      reflexivity.
Qed.

Lemma splitMsgs_filter (msgs : list Msg) (to typ : Z) (drop : bool) :
  splitMsgs isLocal msgs to typ drop
  = (filter (sel to typ drop) msgs,
     filter (fun m => negb (sel to typ drop m)) msgs).
Proof. unfold splitMsgs. now rewrite splitMsgs_loop_filter. Qed.

Lemma filter_partition_Permutation {A : Type} (f : A -> bool) (l : list A) :
  Permutation l (filter f l ++ filter (fun x => negb (f x)) l).
Proof.
  induction l as [|x l IH]; cbn; [constructor|].
  destruct (f x); cbn.
  - now constructor.
  - now apply Permutation_cons_app.
Qed.

Lemma filter_twice {A : Type} (f g : A -> bool) (l : list A) :
  filter f (filter g l) = filter (fun x => g x && f x) l.
Proof.
  induction l as [|x l IH]; cbn; [reflexivity|].
  destruct (g x); cbn; [destruct (f x)|]; now rewrite IH.
Qed.

(** X16.  splitMsgs partitions the messages without reordering them:
    the messages it extracts are those that pass the test of its loop,
    in their order in [msgs], the remainder is the others in their
    order, and together they are the messages it was given. *)
Theorem splitMsgs_partitions (msgs : list Msg) (to typ : Z) (drop : bool) :
  let toMsgs := fst (splitMsgs isLocal msgs to typ drop) in
  let rmdr := snd (splitMsgs isLocal msgs to typ drop) in
  toMsgs = filter (selected isLocal to typ drop) msgs
  /\ rmdr = filter (fun m => negb (selected isLocal to typ drop m)) msgs
  /\ Permutation msgs (toMsgs ++ rmdr)
  /\ (length toMsgs + length rmdr = length msgs)%nat.
Proof.
  cbv zeta. rewrite splitMsgs_filter. cbn [fst snd].
  split; [reflexivity|]. split; [reflexivity|].
  pose proof (filter_partition_Permutation (sel to typ drop) msgs) as Hp.
  split; [exact Hp|].
  apply Permutation_length in Hp. rewrite length_app in Hp. lia.
Qed.

(** X17.  Every message splitMsgs extracts is addressed to [to], has
    the type asked for unless [typ] is negative, and, when [drop] is
    set, is not a local message.  A message to another node, and with
    [drop] set a local message, always stays in the remainder. *)
Theorem splitMsgs_extracts (msgs : list Msg) (to typ : Z) (drop : bool) :
  Forall
    (fun m =>
       To m = to
       /\ (typ < 0 \/ Type_ m = typ)
       /\ (drop = true -> isLocalMsg IsLocalMsgTarget m = false))
    (fst (splitMsgs isLocal msgs to typ drop))
  /\ (forall m, In m msgs -> To m <> to ->
      In m (snd (splitMsgs isLocal msgs to typ drop)))
  /\ (forall m, In m msgs -> drop = true ->
      isLocalMsg IsLocalMsgTarget m = true ->
      In m (snd (splitMsgs isLocal msgs to typ drop))).
Proof.
  rewrite splitMsgs_filter. cbn [fst snd].
  split; [|split].
  - apply Forall_forall. intros m Hin. apply filter_In in Hin.
    destruct Hin as [_ Hsel]. unfold selected in Hsel.
    apply andb_prop in Hsel. destruct Hsel as [Hsel Htyp].
    apply andb_prop in Hsel. destruct Hsel as [Hto Hdrop].
    apply Z.eqb_eq in Hto. split; [exact Hto|]. split.
    + apply orb_prop in Htyp. destruct Htyp as [Hneg|Heq].
      * left. now apply Z.ltb_lt.
      * right. now apply Z.eqb_eq.
    + intros ->. cbn in Hdrop.
      now destruct (isLocalMsg IsLocalMsgTarget m).
  - intros m Hin Hne. apply filter_In. split; [exact Hin|].
    unfold selected. apply Z.eqb_neq in Hne. now rewrite Hne.
  - intros m Hin -> Hlocal. apply filter_In. split; [exact Hin|].
    unfold selected. rewrite Hlocal. cbn. now rewrite andb_false_r.
Qed.

(** X18.  Splitting again what splitMsgs left finds nothing more, and
    splitting what it extracted leaves nothing.  Extracting the
    messages of one node does not change what is extracted for another
    node, and the remainder after extracting for two nodes does not
    depend on the order. *)
Theorem splitMsgs_composes (msgs : list Msg) (a b typ typ' : Z)
  (drop drop' : bool) :
  let for_a := splitMsgs isLocal msgs a typ drop in
  let for_b := splitMsgs isLocal msgs b typ' drop' in
  splitMsgs isLocal (snd for_a) a typ drop = ([], snd for_a)
  /\ splitMsgs isLocal (fst for_a) a typ drop = (fst for_a, [])
  /\ (a <> b ->
      fst (splitMsgs isLocal (snd for_a) b typ' drop') = fst for_b)
  /\ snd (splitMsgs isLocal (snd for_a) b typ' drop')
     = snd (splitMsgs isLocal (snd for_b) a typ drop).
Proof.
  cbv zeta.
  rewrite !splitMsgs_filter. cbn [fst snd]. rewrite ?splitMsgs_filter.
  cbn [fst snd]. rewrite !filter_twice.
  split; [|split; [|split]].
  - f_equal.
    + induction msgs as [|m msgs IH]; cbn; [reflexivity|].
      destruct (sel a typ drop m); cbn; exact IH.
    + apply filter_ext. intros m. destruct (sel a typ drop m); reflexivity.
  - f_equal.
    + apply filter_ext. intros m. destruct (sel a typ drop m); reflexivity.
    + induction msgs as [|m msgs IH]; cbn; [reflexivity|].
      destruct (sel a typ drop m); cbn; exact IH.
  - intros Hne. apply filter_ext. intros m. unfold selected.
    destruct (Z.eqb_spec (To m) a) as [Ha|Ha];
      destruct (Z.eqb_spec (To m) b) as [Hb|Hb]; cbn;
      try reflexivity; [congruence|apply andb_false_r].
  - apply filter_ext. intros m.
    destruct (sel a typ drop m), (sel b typ' drop' m); reflexivity.
Qed.

(** X19.  The test Stabilize makes before it delivers to a node (all
    types, no dropping) holds exactly when some pending message is
    addressed to that node. *)
Theorem hasMsgs_iff (messages : list Msg) (id : Z) :
  hasMsgs isLocal messages id = true
  <-> exists m : Msg, In m messages /\ To m = id.
Proof.
  unfold hasMsgs. rewrite splitMsgs_filter. cbn [fst].
  assert (Hsel : forall m : Msg, sel id (-1) false m = (To m =? id)).
  { intros m. unfold selected. cbn. now rewrite !andb_true_r. }
  rewrite (filter_ext _ _ Hsel).
  split.
  - intros H. apply Nat.ltb_lt in H.
    destruct (filter (fun m : Msg => To m =? id) messages) as [|m l] eqn:Hf;
      [cbn in H; lia|].
    assert (Hin : In m (filter (fun m : Msg => To m =? id) messages))
      by (rewrite Hf; now left).
    apply filter_In in Hin. destruct Hin as [Hin Hto].
    exists m. split; [exact Hin|now apply Z.eqb_eq].
  - intros (m & Hin & Hto). apply Nat.ltb_lt.
    assert (Hf : In m (filter (fun m : Msg => To m =? id) messages)).
    { apply filter_In. split; [exact Hin|now apply Z.eqb_eq]. }
    destruct (filter (fun m : Msg => To m =? id) messages); [destruct Hf|].
    cbn. lia.
Qed.

End SplitMsgsFacts.
